(** * Venmail webhook SDK: signature verification, payload classification
    and delivery-event normalisation.

    The source is the TypeScript module kept in src/scripts/build-cjs.js
    (lines 40-391 of that file; the line numbers below are those). Its
    functions are embedded shallowly:
    - a JavaScript value is a term of [value]; an object is a finite map from
      property names to values ([gmap string value]), a number is a binary64
      float;
    - a JavaScript string is a [string] whose characters are the code units
      0..255 (the range in which Node delivers header values);
    - a [Buffer] is a [list byte];
    - a function that may throw returns a [result];
    - the request handler built by [venmailIntegrationWebhook] threads a
      [World]: the response written so far, the calls made to the caller's
      [onEvent], the errors handed to [next].

    The primitives of the platform are written out: the "utf8", "hex" and
    "base64" codecs of [Buffer], [crypto.timingSafeEqual], and HMAC-SHA256.
    [JSON.parse] and [JSON.stringify] are parameters of the adaptor.

    Part I holds the definitions, Part II the lemmas and theorems. *)

From Stdlib Require Import ZArith NArith List String Ascii Floats Lia.
From Stdlib.Strings Require Import Byte.
From stdpp Require Import gmap strings list fin_maps pretty.

Set Warnings "-register-all".
Local Open Scope string_scope.

(* ===================================================================== *)
(** * Part I. Definitions                                                 *)
(* ===================================================================== *)

(** ** Errors and fallible results *)

(** The error classes the code throws itself or receives from the platform. *)
Inductive error : Type :=
| Error (message : string)
| TypeError (message : string)
| RangeError (message : string)
| SyntaxError (message : string).

(** Outcome of a call: a returned value, or a thrown error. *)
Inductive result (A : Type) : Type :=
| Return (a : A)
| Throw (e : error).
Arguments Return {A} a.
Arguments Throw {A} e.

Definition bind {A B : Type} (r : result A) (k : A -> result B) : result B :=
  match r with
  | Return a => k a
  | Throw e => Throw e
  end.

(** [try { r } catch { h }] *)
Definition try_catch {A : Type} (r : result A) (h : error -> result A) : result A :=
  match r with
  | Return a => Return a
  | Throw e => h e
  end.

Declare Scope result_scope.
Delimit Scope result_scope with result.
Notation "'let!' x ':=' r 'in' k" := (bind r (fun x => k))
  (at level 10, x name, r at level 100, k at level 200) : result_scope.

(** ** Bytes and the Buffer codecs of Node *)

Module Buffer.

Definition t : Type := list byte.

Definition byte_of_N (n : N) : byte :=
  match Byte.of_N (n mod 256) with
  | Some b => b
  | None => x00
  end.

(** *** "utf8": [Buffer.from(s, "utf8")] for code units below 256.
    A code unit below 0x80 is one byte; the others are the two bytes
    [0xC0 | (c >> 6)] and [0x80 | (c & 0x3F)]. *)
Definition utf8_of_char (c : ascii) : list byte :=
  let n := N_of_ascii c in
  if (n <? 128)%N then [byte_of_N n]
  else [byte_of_N (N.lor 192 (N.shiftr n 6)); byte_of_N (N.lor 128 (N.land n 63))].

Fixpoint from_utf8 (s : string) : t :=
  match s with
  | EmptyString => []
  | String c rest => (utf8_of_char c ++ from_utf8 rest)%list
  end.

(** *** "hex" *)

(** One digit of [digest("hex")]: lowercase. *)
Definition hex_digit (d : N) : ascii :=
  if (d <? 10)%N then ascii_of_N (48 + d) else ascii_of_N (87 + d).

Fixpoint to_hex (b : t) : string :=
  match b with
  | [] => EmptyString
  | x :: rest =>
      let n := Byte.to_N x in
      String (hex_digit (n / 16)) (String (hex_digit (n mod 16)) (to_hex rest))
  end.

(** The [unhex] table of Node: digits and both letter cases, nothing else. *)
Definition unhex (c : ascii) : option N :=
  let n := N_of_ascii c in
  if ((48 <=? n) && (n <=? 57))%N then Some (n - 48)%N
  else if ((65 <=? n) && (n <=? 70))%N then Some (n - 55)%N
  else if ((97 <=? n) && (n <=? 102))%N then Some (n - 87)%N
  else None.

(** [Buffer.from(s, "hex")]: pairs of digits are decoded from the left; the
    decoding stops, without an error, at the first pair that is not two
    hexadecimal digits, and a trailing single character is dropped. *)
Fixpoint from_hex (s : string) : t :=
  match s with
  | String a (String b rest) =>
      match unhex a, unhex b with
      | Some hi, Some lo => byte_of_N (16 * hi + lo) :: from_hex rest
      | _, _ => []
      end
  | _ => []
  end.

(** *** "base64" *)

(** The alphabet of [digest("base64")]. *)
Definition base64_digit (d : N) : ascii :=
  if (d <? 26)%N then ascii_of_N (65 + d)
  else if (d <? 52)%N then ascii_of_N (71 + d)
  else if (d <? 62)%N then ascii_of_N (d - 4)
  else if (d =? 62)%N then "+"%char
  else "/"%char.

Definition pad : ascii := "="%char.

(** [digest("base64")]: three bytes give four digits; a last group of one
    or two bytes is padded with "=". *)
Fixpoint to_base64 (b : t) : string :=
  match b with
  | [] => EmptyString
  | [x] =>
      let n := Byte.to_N x in
      String (base64_digit (n / 4))
        (String (base64_digit ((n mod 4) * 16))
           (String pad (String pad EmptyString)))
  | [x; y] =>
      let n := (Byte.to_N x * 256 + Byte.to_N y)%N in
      String (base64_digit (n / 1024))
        (String (base64_digit ((n / 16) mod 64))
           (String (base64_digit ((n mod 16) * 4))
              (String pad EmptyString)))
  | x :: y :: z :: rest =>
      let n := (Byte.to_N x * 65536 + Byte.to_N y * 256 + Byte.to_N z)%N in
      String (base64_digit (n / 262144))
        (String (base64_digit ((n / 4096) mod 64))
           (String (base64_digit ((n / 64) mod 64))
              (String (base64_digit (n mod 64)) (to_base64 rest))))
  end.

(** The [unbase64] table of Node: the standard and the URL-safe alphabet. *)
Definition unbase64 (c : ascii) : option N :=
  let n := N_of_ascii c in
  if ((65 <=? n) && (n <=? 90))%N then Some (n - 65)%N
  else if ((97 <=? n) && (n <=? 122))%N then Some (n - 71)%N
  else if ((48 <=? n) && (n <=? 57))%N then Some (n + 4)%N
  else if ((n =? 43) || (n =? 45))%N then Some 62%N
  else if ((n =? 47) || (n =? 95))%N then Some 63%N
  else None.

(** The digits read by the decoder: it skips every character outside the
    alphabets and stops at the first "=". *)
Fixpoint base64_sextets (s : string) : list N :=
  match s with
  | EmptyString => []
  | String c rest =>
      match unbase64 c with
      | Some d => d :: base64_sextets rest
      | None => if Ascii.eqb c pad then [] else base64_sextets rest
      end
  end.

(** Four digits give three bytes; three give two; two give one; a single
    left-over digit gives none. *)
Fixpoint bytes_of_sextets (ds : list N) : t :=
  match ds with
  | a :: b :: c :: d :: rest =>
      byte_of_N (a * 4 + b / 16) :: byte_of_N (b * 16 + c / 4)
        :: byte_of_N (c * 64 + d) :: bytes_of_sextets rest
  | [a; b; c] => [byte_of_N (a * 4 + b / 16); byte_of_N (b * 16 + c / 4)]
  | [a; b] => [byte_of_N (a * 4 + b / 16)]
  | _ => []
  end.

(** [Buffer.from(s, "base64")] *)
Definition from_base64 (s : string) : t := bytes_of_sextets (base64_sextets s).

End Buffer.

#[global] Instance byte_eq_decision : EqDecision byte := Byte.byte_eq_dec.

(** The [encoding] option of [verifyVenmailSignature]. *)
Inductive encoding : Type := hex | base64.

(** [hmac.digest(encoding)] *)
Definition digest (enc : encoding) (d : Buffer.t) : string :=
  match enc with
  | hex => Buffer.to_hex d
  | base64 => Buffer.to_base64 d
  end.

(** [Buffer.from(s, encoding)] *)
Definition Buffer_from (s : string) (enc : encoding) : Buffer.t :=
  match enc with
  | hex => Buffer.from_hex s
  | base64 => Buffer.from_base64 s
  end.

(** ** [crypto.timingSafeEqual]

    The platform primitive throws on buffers of different byte length;
    otherwise it folds the XOR of every pair of bytes into an accumulator,
    whatever the position of a difference, and answers whether the
    accumulator is still zero. *)
Module crypto.

Fixpoint xor_fold (acc : N) (a b : Buffer.t) : N :=
  match a, b with
  | x :: a', y :: b' => xor_fold (N.lor acc (N.lxor (Byte.to_N x) (Byte.to_N y))) a' b'
  | _, _ => acc
  end.

Definition timingSafeEqual (a b : Buffer.t) : result bool :=
  if Nat.eqb (length a) (length b)
  then Return (N.eqb (xor_fold 0 a b) 0)
  else Throw (RangeError "Input buffers must have the same byte length").

End crypto.

(** ** [crypto.createHmac("sha256", key).update(data).digest()]

    The platform's HMAC-SHA256, written out after FIPS 180-4 and RFC 2104 so
    that the verifier can be run on concrete requests. Words are 32-bit
    integers in [Z] with the wrap-around explicit. *)
Module SHA256.
Local Open Scope Z_scope.

Definition wrap (x : Z) : Z := x mod 4294967296.
Definition add (x y : Z) : Z := wrap (x + y).
Definition rotr (n x : Z) : Z := wrap (Z.lor (Z.shiftr x n) (Z.shiftl x (32 - n))).
Definition shr (n x : Z) : Z := Z.shiftr x n.
Definition not32 (x : Z) : Z := Z.lxor x 4294967295.

Definition Ch (x y z : Z) : Z := Z.lxor (Z.land x y) (Z.land (not32 x) z).
Definition Maj (x y z : Z) : Z :=
  Z.lxor (Z.lxor (Z.land x y) (Z.land x z)) (Z.land y z).
Definition Sigma0 (x : Z) : Z := Z.lxor (Z.lxor (rotr 2 x) (rotr 13 x)) (rotr 22 x).
Definition Sigma1 (x : Z) : Z := Z.lxor (Z.lxor (rotr 6 x) (rotr 11 x)) (rotr 25 x).
Definition sigma0 (x : Z) : Z := Z.lxor (Z.lxor (rotr 7 x) (rotr 18 x)) (shr 3 x).
Definition sigma1 (x : Z) : Z := Z.lxor (Z.lxor (rotr 17 x) (rotr 19 x)) (shr 10 x).

(** The constants are defined as FIPS 180-4 defines them: the first 32 bits
    of the fractional parts of the cube roots (for [K]) and of the square
    roots (for [H0]) of the first primes. *)
Definition is_prime (p : Z) : bool :=
  forallb (fun d => negb (p mod d =? 0)) (map Z.of_nat (seq 2 (Z.to_nat p - 2))).

Definition primes (n : nat) : list Z :=
  firstn n (filter is_prime (map Z.of_nat (seq 2 320))).

(** The integer cube root of [n], one bit at a time from bit [bits - 1]. *)
Fixpoint root3 (bits : nat) (n r : Z) : Z :=
  match bits with
  | O => r
  | S b =>
      let c := r + 2 ^ Z.of_nat b in
      root3 b n (if c * c * c <=? n then c else r)
  end.

Definition frac_root3 (p : Z) : Z := wrap (root3 36 (p * 2 ^ 96) 0).
Definition frac_root2 (p : Z) : Z := wrap (Z.sqrt (p * 2 ^ 64)).

Definition K : list Z := Eval vm_compute in map frac_root3 (primes 64).

(** The eight working words. *)
Record state : Type := State { sa : Z; sb : Z; sc : Z; sd : Z; se : Z; sf : Z; sg : Z; sh : Z }.

Definition state_of (ws : list Z) : state :=
  let w (i : nat) := nth i ws 0 in
  State (w 0%nat) (w 1%nat) (w 2%nat) (w 3%nat) (w 4%nat) (w 5%nat) (w 6%nat) (w 7%nat).

Definition H0 : state := Eval vm_compute in state_of (map frac_root2 (primes 8)).

(** Big-endian words of a block of bytes. *)
Fixpoint words (bs : list Z) : list Z :=
  match bs with
  | b0 :: b1 :: b2 :: b3 :: rest =>
      (b0 * 16777216 + b1 * 65536 + b2 * 256 + b3) :: words rest
  | _ => []
  end.

(** The message schedule: [n] more words after the ones in [w]. *)
Fixpoint schedule (n : nat) (w : list Z) : list Z :=
  match n with
  | O => w
  | S n' =>
      let t := length w in
      let at_ (i : nat) := nth (t - i) w 0 in
      schedule n' (w ++ [add (add (sigma1 (at_ 2%nat)) (at_ 7%nat))
                             (add (sigma0 (at_ 15%nat)) (at_ 16%nat))])%list
  end.

Definition round (s : state) (kw : Z * Z) : state :=
  let '(k, w) := kw in
  let t1 := add (add (add (add (sh s) (Sigma1 (se s))) (Ch (se s) (sf s) (sg s))) k) w in
  let t2 := add (Sigma0 (sa s)) (Maj (sa s) (sb s) (sc s)) in
  State (add t1 t2) (sa s) (sb s) (sc s) (add (sd s) t1) (se s) (sf s) (sg s).

Definition compress (h : state) (block : list Z) : state :=
  let w := schedule 48 (words block) in
  let s := fold_left round (combine K w) h in
  State (add (sa h) (sa s)) (add (sb h) (sb s)) (add (sc h) (sc s)) (add (sd h) (sd s))
        (add (se h) (se s)) (add (sf h) (sf s)) (add (sg h) (sg s)) (add (sh h) (sh s)).

(** 0x80, zeros up to 56 modulo 64, then the bit length on eight bytes. *)
Definition padding (len : nat) : list Z :=
  let zeros := ((55 + 64 - len mod 64) mod 64)%nat in
  let bits := Z.of_nat len * 8 in
  (128 :: repeat 0 zeros)
    ++ map (fun i => Z.shiftr bits (8 * i) mod 256) [7; 6; 5; 4; 3; 2; 1; 0].

Fixpoint blocks (n : nat) (data : list Z) (h : state) : state :=
  match n with
  | O => h
  | S n' => blocks n' (skipn 64 data) (compress h (firstn 64 data))
  end.

Definition word_bytes (w : Z) : list byte :=
  map (fun i => Buffer.byte_of_N (Z.to_N (Z.shiftr w (8 * i) mod 256))) [3; 2; 1; 0].

Definition state_bytes (s : state) : list byte :=
  (word_bytes (sa s) ++ word_bytes (sb s) ++ word_bytes (sc s) ++ word_bytes (sd s)
    ++ word_bytes (se s) ++ word_bytes (sf s) ++ word_bytes (sg s) ++ word_bytes (sh s))%list.

Definition hash (msg : list byte) : list byte :=
  let data := (map (fun b => Z.of_N (Byte.to_N b)) msg ++ padding (length msg))%list in
  state_bytes (blocks (length data / 64) data H0).

End SHA256.

Module Hmac.

Definition block_size : nat := 64.

Definition xor_with (c : N) (b : byte) : byte :=
  Buffer.byte_of_N (N.lxor (Byte.to_N b) c).

(** The key on one block: hashed when longer, then filled with zeros. *)
Definition block_key (key : list byte) : list byte :=
  let k := if Nat.ltb block_size (length key) then SHA256.hash key else key in
  (k ++ repeat x00 (block_size - length k))%list.

Definition sha256 (key data : list byte) : list byte :=
  let k := block_key key in
  SHA256.hash (map (xor_with 92) k ++ SHA256.hash (map (xor_with 54) k ++ data))%list.

End Hmac.

(** ** Signature verification (lines 62-116) *)

(** [rawBody: Buffer | string] *)
Inductive raw_body : Type :=
| RawBuffer (b : Buffer.t)
| RawString (s : string).

(** [!s] for a string: only the empty string is falsy. *)
Definition str_falsy (s : string) : bool := String.eqb s "".

(** The fields of the options object are the arguments; an omitted
    [encoding] is [None] and defaults to "hex". *)
Definition verifyVenmailSignature
    (secret signature : string) (rawBody : raw_body) (encoding : option encoding)
  : result bool :=
  let encoding := default hex encoding in
  if str_falsy secret then
    Throw (Error "Venmail signature validation requires a secret")
  else if str_falsy signature then
    Return false
  else
    let computed :=
      digest encoding
        (Hmac.sha256 (Buffer.from_utf8 secret)
           (match rawBody with
            | RawString s => Buffer.from_utf8 s
            | RawBuffer b => b
            end)) in
    try_catch
      (crypto.timingSafeEqual (Buffer_from signature encoding) (Buffer_from computed encoding))
      (fun _ => Return false).

(** [provided?: string | null]: [None] stands for both null and undefined. *)
Definition verifySharedSecretHeader (secret : string) (provided : option string)
  : result bool :=
  if str_falsy secret then
    Throw (Error "Missing expected secret for header validation")
  else
    match provided with
    | None => Return false
    | Some provided =>
        if str_falsy provided then Return false
        else
          try_catch
            (crypto.timingSafeEqual (Buffer.from_utf8 secret) (Buffer.from_utf8 provided))
            (fun _ => Return false)
    end.

(** ** JavaScript values *)

Inductive value : Type :=
| JUndefined
| JNull
| JBool (b : bool)
| JNumber (n : float)
| JString (s : string)
| JArray (items : list value)
| JObject (props : gmap string value).

(** [Boolean(v)]: undefined, null, false, 0, -0, NaN and "" are falsy. *)
Definition truthy (v : value) : bool :=
  match v with
  | JUndefined | JNull => false
  | JBool b => b
  | JNumber n => negb (PrimFloat.eqb n 0 || negb (PrimFloat.eqb n n))
  | JString s => negb (str_falsy s)
  | JArray _ | JObject _ => true
  end.

Definition typeof (v : value) : string :=
  match v with
  | JUndefined => "undefined"
  | JBool _ => "boolean"
  | JNumber _ => "number"
  | JString _ => "string"
  | JNull | JArray _ | JObject _ => "object"
  end.

Definition nullish (v : value) : bool :=
  match v with
  | JUndefined | JNull => true
  | _ => false
  end.

(** [v[key]] and [v.key]: a TypeError on undefined and null; the own property
    of an object, or undefined. Primitives and arrays answer undefined: none
    of the names this code reads is an index, "length" or an inherited
    method. *)
Definition prop (v : value) (key : string) : result value :=
  match v with
  | JUndefined | JNull =>
      Throw (TypeError "Cannot read properties of undefined or null")
  | JObject props => Return (default JUndefined (props !! key))
  | _ => Return JUndefined
  end.

(** [v?.key] *)
Definition opt_prop (v : value) (key : string) : result value :=
  if nullish v then Return JUndefined else prop v key.

(** [a && b]: [b] is evaluated only when [a] is truthy. *)
Definition js_and (a b : result value) : result value :=
  bind a (fun x => if truthy x then b else Return x).

(** [a ?? b] *)
Definition js_coalesce (a b : result value) : result value :=
  bind a (fun x => if nullish x then b else Return x).

(** ** Payload classification (lines 206-273) *)

Inductive VenmailWebhookKind : Type :=
| integration | mail | status | bounce | form | unknown.

(** An optional field that is not set is [None]; [campaignId], when set, is
    a string or null ([Some None]). *)
Record VenmailWebhookInspection : Type := {
  kind : VenmailWebhookKind;
  isCampaignEvent : option bool;
  campaignId : option (option string);
}.

(** [{ kind }] *)
Definition only_kind (k : VenmailWebhookKind) : VenmailWebhookInspection :=
  {| kind := k; isCampaignEvent := None; campaignId := None |}.

(** [tag.split(":")]: the pieces between the colons, in order. *)
Fixpoint split_colon (s : string) : list string :=
  match s with
  | EmptyString => [EmptyString]
  | String c rest =>
      if Ascii.eqb c ":"%char then EmptyString :: split_colon rest
      else
        match split_colon rest with
        | piece :: pieces => String c piece :: pieces
        | [] => [String c EmptyString]
        end
  end.

(** [string | null] as an option; [tag] is whatever the payload holds. *)
Definition extractCampaignId (tag : value) : option string :=
  if negb (truthy tag) || negb (String.eqb (typeof tag) "string") then None
  else
    match tag with
    | JString tag =>
        if String.prefix "campaign:" tag then
          match split_colon tag !! 1%nat with
          | Some id => Some id
          | None => None
          end
        else None
    | _ => None
    end.

(** [Boolean(campaignId)] for a [string | null]. *)
Definition Boolean_id (id : option string) : bool :=
  match id with
  | Some s => negb (str_falsy s)
  | None => false
  end.

Local Open Scope result_scope.

Definition detectVenmailWebhookKind (payload : value) : result VenmailWebhookInspection :=
  let data := payload in
  if negb (truthy data) then Return (only_kind unknown)
  else
    let! event_type := prop data "event_type" in
    if String.eqb (typeof event_type) "string" then Return (only_kind integration)
    else
      let! is_form := js_and (prop data "form_id") (prop data "events") in
      if truthy is_form then Return (only_kind form)
      else
        let! is_bounce := js_and (prop data "original_message") (prop data "bounce") in
        if truthy is_bounce then
          let! original_message := prop data "original_message" in
          let! tag := opt_prop original_message "tag" in
          let campaignId := extractCampaignId tag in
          Return {| kind := bounce;
                    isCampaignEvent := Some (Boolean_id campaignId);
                    campaignId := Some campaignId |}
        else
          let! is_status := js_and (prop data "status") (prop data "message") in
          if truthy is_status then
            let! message := prop data "message" in
            let! tag := opt_prop message "tag" in
            let campaignId := extractCampaignId tag in
            Return {| kind := status;
                      isCampaignEvent := Some (Boolean_id campaignId);
                      campaignId := Some campaignId |}
          else
            let! is_mail := js_and (prop data "rcpt_to") (prop data "message_id") in
            if truthy is_mail then Return (only_kind mail)
            else Return (only_kind unknown).

(** ** Delivery events (lines 275-331) *)

Definition isMailWebhookPayload (value : value) : result bool :=
  let payload := value in
  let! r := js_and (js_and (Return payload) (prop payload "message_id"))
              (prop payload "rcpt_to") in
  Return (truthy r).

Definition isStatusPayload (value : value) : result bool :=
  let payload := value in
  let! r := js_and (js_and (Return payload) (prop payload "status"))
              (prop payload "message") in
  Return (truthy r).

Definition isBouncePayload (value : value) : result bool :=
  let payload := value in
  let! r := js_and (js_and (Return payload) (prop payload "original_message"))
              (prop payload "bounce") in
  Return (truthy r).

Record NormalizedDeliveryEvent : Type := {
  messageId : value;
  recipient : value;
  nstatus : value;               (* the field [status] *)
  ncampaignId : option string;   (* the field [campaignId]: a string or null *)
  npayload : value;              (* the field [payload] *)
}.

Definition normalizeDeliveryEvent (payload : value) : result NormalizedDeliveryEvent :=
  let! is_bounce := isBouncePayload payload in
  if is_bounce then
    let! message := prop payload "original_message" in
    let! message_id := opt_prop message "message_id" in
    let! to := opt_prop message "to" in
    let! tag := opt_prop message "tag" in
    Return {| messageId := message_id;
              recipient := to;
              nstatus := JString "MessageBounced";
              ncampaignId := extractCampaignId tag;
              npayload := payload |}
  else
    let! is_status := isStatusPayload payload in
    if is_status then
      let! message := js_coalesce (prop payload "message") (Return (JObject ∅)) in
      let! message_id := prop message "message_id" in
      let! to := prop message "to" in
      let! status := prop payload "status" in
      let! tag := prop message "tag" in
      Return {| messageId := message_id;
                recipient := to;
                nstatus := status;
                ncampaignId := extractCampaignId tag;
                npayload := payload |}
    else
      Return {| messageId := JUndefined;
                recipient := JUndefined;
                nstatus := JString "Unknown";
                ncampaignId := None;
                npayload := payload |}.

(** ** The Express adaptor (lines 118-204) *)

Definition DEFAULT_SIGNATURE_HEADER : string := "x-venmail-signature".
Definition DEFAULT_EVENT_HEADER : string := "x-venmail-event".

(** [req.body]: a Buffer, or a plain value (undefined when no body parser
    ran). *)
Inductive req_body : Type :=
| BodyBuffer (b : Buffer.t)
| BodyValue (v : value).

(** What the handler reads of the Express request. [get] is [req.get]. *)
Record Request : Type := {
  body : req_body;
  rawBody : option raw_body;
  get : string -> option string;
}.

(** What the handler does to the Express response: [res.status(c).json(b)]
    is recorded in [sent]. *)
Record Response : Type := {
  headersSent : bool;
  sent : list (nat * value);
}.

Definition status_json (code : nat) (b : value) (res : Response) : Response :=
  {| headersSent := true; sent := sent res ++ [(code, b)] |}.

(** The caller's [onEvent]: it receives the event, the request and the
    response, may write the response and may throw. *)
Definition EventHandler : Type :=
  value -> Request -> Response -> result unit * Response.

(** The collaborators of one request: the response, the events handed to
    [onEvent] so far, and the errors handed to [next]. *)
Record World : Type := {
  res : Response;
  onEvent_calls : list value;
  next_calls : list error;
}.

Record VenmailIntegrationWebhookOptions : Type := {
  secret : string;
  onEvent : option EventHandler;        (* [None]: not a function *)
  allowUnsigned : option bool;
  signatureHeader : option string;
  eventHeader : option string;
  rawBodyExtractor : option (Request -> result Buffer.t);
  autoRespond : option bool;
}.

(** [{ ok: false, error: "Invalid Venmail signature" }] *)
Definition invalid_signature_body : value :=
  JObject {[ "ok" := JBool false; "error" := JString "Invalid Venmail signature" ]}.

(** [{ ok: true }] *)
Definition ok_body : value := JObject {[ "ok" := JBool true ]}.

(** The own enumerable properties copied by [{ ...v }]: the properties of an
    object, the indexed elements of an array or of a string, nothing for the
    other values. *)
Definition spread (v : value) : gmap string value :=
  match v with
  | JObject props => props
  | JArray items => list_to_map (imap (fun i x => (pretty i, x)) items)
  | JString s =>
      list_to_map
        (imap (fun i c => (pretty i, JString (String c EmptyString))) (list_ascii_of_string s))
  | _ => ∅
  end.

Section Adaptor.

(** [JSON.stringify(v)] and [JSON.parse(raw.toString("utf8"))] are the
    platform's; the adaptor is stated for any such pair. *)
Variable JSON_stringify : value -> string.
Variable JSON_parse : Buffer.t -> result value.

Definition resolveRawBody (req : Request) (fallback : option Buffer.t) : Buffer.t :=
  match body req, rawBody req with
  | BodyBuffer b, _ => b
  | _, Some (RawBuffer b) => b
  | BodyValue (JString s), _ => Buffer.from_utf8 s
  | _, Some (RawString s) => Buffer.from_utf8 s
  | BodyValue v, _ =>
      if truthy v && String.eqb (typeof v) "object"
      then Buffer.from_utf8 (JSON_stringify v)
      else default (Buffer.from_utf8 "{}") fallback
  end.

(** The body of the [try] block, run on the world [w]. *)
Definition process
    (secret : string) (onEvent : EventHandler) (allowUnsigned : bool)
    (signatureHeader eventHeader : string)
    (rawBodyExtractor : option (Request -> result Buffer.t))
    (autoRespond : bool) (req : Request) (w : World) : result unit * World :=
  match (match rawBodyExtractor with
         | Some extract => extract req
         | None => Return (resolveRawBody req None)
         end) with
  | Throw e => (Throw e, w)
  | Return raw =>
      let providedSignature := default "" (get req signatureHeader) in
      match (if allowUnsigned then Return true
             else verifyVenmailSignature secret providedSignature (RawBuffer raw) None) with
      | Throw e => (Throw e, w)
      | Return isValid =>
          if negb isValid then
            (Return tt,
             {| res := status_json 401 invalid_signature_body (res w);
                onEvent_calls := onEvent_calls w;
                next_calls := next_calls w |})
          else
            match JSON_parse raw with
            | Throw e => (Throw e, w)
            | Return parsed =>
                match js_coalesce
                        (js_coalesce
                           (Return (from_option JString JUndefined (get req eventHeader)))
                           (prop parsed "event_type"))
                        (Return (JString "")) with
                | Throw e => (Throw e, w)
                | Return event =>
                    let enriched :=
                      JObject
                        (<["headers" :=
                             JObject {[ "x-venmail-event" := event;
                                        "x-venmail-signature" := JString providedSignature ]}]>
                           (spread parsed)) in
                    let '(outcome, res') := onEvent enriched req (res w) in
                    let w' := {| res := res';
                                 onEvent_calls := onEvent_calls w ++ [enriched];
                                 next_calls := next_calls w |} in
                    match outcome with
                    | Throw e => (Throw e, w')
                    | Return _ =>
                        if autoRespond && negb (headersSent res') then
                          (Return tt,
                           {| res := status_json 200 ok_body res';
                              onEvent_calls := onEvent_calls w';
                              next_calls := next_calls w' |})
                        else (Return tt, w')
                    end
                end
            end
      end
  end.

(** The returned handler: [catch (error) { next(error) }] around [process]. *)
Definition venmailIntegrationWebhook (options : VenmailIntegrationWebhookOptions)
  : result (Request -> World -> World) :=
  match onEvent options with
  | None => Throw (Error "onEvent handler is required")
  | Some handle =>
      Return (fun req w =>
        match process (secret options) handle
                (default false (allowUnsigned options))
                (default DEFAULT_SIGNATURE_HEADER (signatureHeader options))
                (default DEFAULT_EVENT_HEADER (eventHeader options))
                (rawBodyExtractor options)
                (default true (autoRespond options)) req w with
        | (Return _, w') => w'
        | (Throw e, w') =>
            {| res := res w';
               onEvent_calls := onEvent_calls w';
               next_calls := next_calls w' ++ [e] |}
        end)
  end.

End Adaptor.

(** ** Definitions used to state and prove the theorems *)

(** Reading back the bytes of [Buffer.from_utf8]: the inverse used to show
    that two different strings never share their UTF-8 bytes. *)
Fixpoint utf8_chars (b : list byte) : string :=
  match b with
  | [] => EmptyString
  | x :: rest =>
      let n := Byte.to_N x in
      if (n <? 128)%N then String (ascii_of_N n) (utf8_chars rest)
      else
        match rest with
        | y :: rest' =>
            String (ascii_of_N ((n mod 4) * 64 + Byte.to_N y mod 64)) (utf8_chars rest')
        | [] => EmptyString
        end
  end.

(** The bytes that are signed: [rawBody] itself, or its UTF-8 bytes. *)
Definition signed_bytes (rawBody : raw_body) : list byte :=
  match rawBody with
  | RawString s => Buffer.from_utf8 s
  | RawBuffer b => b
  end.

(** The digest the verifier computes for a request. *)
Definition expected_digest (secret : string) (rawBody : raw_body) : list byte :=
  Hmac.sha256 (Buffer.from_utf8 secret) (signed_bytes rawBody).

(** A well-formed hexadecimal signature: an even number of hexadecimal
    digits and nothing else. *)
Fixpoint hex_string (s : string) : bool :=
  match s with
  | EmptyString => true
  | String a (String b rest) =>
      match Buffer.unhex a, Buffer.unhex b with
      | Some _, Some _ => hex_string rest
      | _, _ => false
      end
  | String _ EmptyString => false
  end.

(** The field [key] of a payload: the property of an object, undefined when
    the object has no such property or the payload is no object. *)
Definition field (payload : value) (key : string) : value :=
  match payload with
  | JObject props => default JUndefined (props !! key)
  | _ => JUndefined
  end.

Definition is_string (v : value) : bool :=
  match v with
  | JString _ => true
  | _ => false
  end.

(** The five structural shapes, each as the test the classifier makes on the
    fields: a string [event_type]; otherwise two truthy fields. *)
Definition integration_shape (payload : value) : bool :=
  is_string (field payload "event_type").
Definition form_shape (payload : value) : bool :=
  truthy (field payload "form_id") && truthy (field payload "events").
Definition bounce_shape (payload : value) : bool :=
  truthy (field payload "original_message") && truthy (field payload "bounce").
Definition status_shape (payload : value) : bool :=
  truthy (field payload "status") && truthy (field payload "message").
Definition mail_shape (payload : value) : bool :=
  truthy (field payload "rcpt_to") && truthy (field payload "message_id").

(** Integration, Form, Bounce, Status, Mail, Unknown: the first shape that
    matches. *)
Definition first_match (payload : value) : VenmailWebhookKind :=
  if integration_shape payload then integration
  else if form_shape payload then form
  else if bounce_shape payload then bounce
  else if status_shape payload then status
  else if mail_shape payload then mail
  else unknown.

(** The characters of [s] before its first colon (all of [s] without one). *)
Fixpoint until_colon (s : string) : string :=
  match s with
  | EmptyString => EmptyString
  | String c rest =>
      if Ascii.eqb c ":"%char then EmptyString else String c (until_colon rest)
  end.

(** The raw body the handler verifies and parses: the extractor of the
    caller when there is one, [resolveRawBody] otherwise. *)
Definition raw_of (JSON_stringify : value -> string)
    (options : VenmailIntegrationWebhookOptions) (req : Request) : result Buffer.t :=
  match rawBodyExtractor options with
  | Some extract => extract req
  | None => Return (resolveRawBody JSON_stringify req None)
  end.

(** [req.get(signatureHeader) ?? ""] *)
Definition provided_signature
    (options : VenmailIntegrationWebhookOptions) (req : Request) : string :=
  default "" (get req (default DEFAULT_SIGNATURE_HEADER (signatureHeader options))).

(** The value of "x-venmail-event" in the enriched event. *)
Definition event_name
    (options : VenmailIntegrationWebhookOptions) (req : Request) (parsed : value)
  : result value :=
  js_coalesce
    (js_coalesce
       (Return (from_option JString JUndefined
                  (get req (default DEFAULT_EVENT_HEADER (eventHeader options)))))
       (prop parsed "event_type"))
    (Return (JString "")).

(** The event handed to [onEvent]. *)
Definition enriched_event (parsed event : value) (signature : string) : value :=
  JObject
    (<["headers" := JObject {[ "x-venmail-event" := event;
                               "x-venmail-signature" := JString signature ]}]>
       (spread parsed)).

(** The same options with another secret. *)
Definition with_secret (s : string) (o : VenmailIntegrationWebhookOptions)
  : VenmailIntegrationWebhookOptions :=
  {| secret := s;
     onEvent := onEvent o;
     allowUnsigned := allowUnsigned o;
     signatureHeader := signatureHeader o;
     eventHeader := eventHeader o;
     rawBodyExtractor := rawBodyExtractor o;
     autoRespond := autoRespond o |}.

(** The response after [res.status(401).json(...)], nothing else touched. *)
Definition rejected (w : World) : World :=
  {| res := status_json 401 invalid_signature_body (res w);
     onEvent_calls := onEvent_calls w;
     next_calls := next_calls w |}.

(** The body signed in the tests of the repository: the text
    [JSON.stringify({ test: "data" })]. *)
Definition quoted (s : string) : string :=
  String (ascii_of_nat 34) s ++ String (ascii_of_nat 34) EmptyString.

Definition test_payload : string := "{" ++ quoted "test" ++ ":" ++ quoted "data" ++ "}".

(** A response nobody wrote to, and a world where nothing happened. *)
Definition fresh_response : Response := {| headersSent := false; sent := [] |}.
Definition fresh_world : World :=
  {| res := fresh_response; onEvent_calls := []; next_calls := [] |}.

(** A request as the integration test posts it: the body as bytes and the
    two Venmail headers. *)
Definition test_request (signature : string) : Request :=
  {| body := BodyBuffer (Buffer.from_utf8 test_payload);
     rawBody := None;
     get := fun name =>
              if String.eqb name "x-venmail-signature" then Some signature
              else if String.eqb name "x-venmail-event" then Some "MailReceived"
              else None |}.

(** The options of the integration test, with an [onEvent] that returns
    without writing a response. *)
Definition test_options (allowUnsigned autoRespond : option bool)
  : VenmailIntegrationWebhookOptions :=
  {| secret := "test-secret";
     onEvent := Some (fun _ _ r => (Return tt, r));
     allowUnsigned := allowUnsigned;
     signatureHeader := None;
     eventHeader := None;
     rawBodyExtractor := None;
     autoRespond := autoRespond |}.

(** Stand-ins for the platform's JSON functions on the test body. *)
Definition test_stringify (_ : value) : string := test_payload.
Definition test_parse (_ : Buffer.t) : result value :=
  Return (JObject {[ "test" := JString "data" ]}).

(** ** Attachments (lines 333-388) *)

(** [Array.isArray(v)] *)
Definition isArray (v : value) : bool :=
  match v with
  | JArray _ => true
  | _ => false
  end.

(** [items.map(f)] for a callback that may throw: the first throw ends the
    iteration. *)
Fixpoint map_result {A B : Type} (f : A -> result B) (items : list A) : result (list B) :=
  match items with
  | [] => Return []
  | x :: rest =>
      let! y := f x in
      let! ys := map_result f rest in
      Return (y :: ys)
  end.

(** The object literal built for one element of [attachments]: six
    properties, each read from the element. *)
Definition attachment_object (attachment : value) : result value :=
  let! filename := prop attachment "filename" in
  let! content_type := prop attachment "content_type" in
  let! size := prop attachment "size" in
  let! storage_url := prop attachment "storage_url" in
  let! attachment_id := prop attachment "attachment_id" in
  let! thumbnail_url := prop attachment "thumbnail_url" in
  Return (JObject {[ "filename" := filename;
                     "content_type" := content_type;
                     "size" := size;
                     "storage_url" := storage_url;
                     "attachment_id" := attachment_id;
                     "thumbnail_url" := thumbnail_url ]}).

(** The result is the array of the objects built, as a list. *)
Definition extractAttachments (payload : value) : result (list value) :=
  let data := payload in
  let! attachments := opt_prop data "attachments" in
  if negb (truthy attachments) then Return []
  else
    let! attachments := prop data "attachments" in
    if negb (isArray attachments) then Return []
    else
      let! attachments := prop data "attachments" in
      match attachments with
      | JArray items => map_result attachment_object items
      | _ => Throw (TypeError "data.attachments.map is not a function")
      end.

(** [VenmailAttachmentInfo], as the interface declares it: an optional
    field that is not set is [None]. *)
Module Attachment.

Record t : Type := {
  filename : string;
  content_type : option string;
  size : option float;
  storage_url : option string;
  attachment_id : option string;
  thumbnail_url : option string;
}.

End Attachment.

(** Truthiness of a [string | undefined] and of a [number | undefined]. *)
Definition opt_str_truthy (o : option string) : bool :=
  match o with
  | Some s => negb (str_falsy s)
  | None => false
  end.

Definition opt_num_truthy (o : option float) : bool :=
  match o with
  | Some n => truthy (JNumber n)
  | None => false
  end.

(** [10 * 1024 * 1024] *)
Definition DEFAULT_THRESHOLD : float := 10485760.

(** [attachments.some(a => a.size && a.size > threshold)]; an omitted
    [threshold] is [None]. *)
Definition hasLargeAttachments
    (attachments : list Attachment.t) (threshold : option float) : bool :=
  let threshold := default DEFAULT_THRESHOLD threshold in
  existsb
    (fun attachment =>
       match Attachment.size attachment with
       | Some size => if truthy (JNumber size) then PrimFloat.ltb threshold size else false
       | None => false
       end)
    attachments.

Definition getAttachmentDownloadUrl (attachment : Attachment.t) (baseUrl : string)
  : result string :=
  if opt_str_truthy (Attachment.storage_url attachment) then
    Return (default "" (Attachment.storage_url attachment))
  else if opt_str_truthy (Attachment.attachment_id attachment) then
    Return (baseUrl ++ "/api/v1/attachments/"
              ++ default "" (Attachment.attachment_id attachment) ++ "/download")
  else
    Throw (Error "Attachment must have either storage_url or attachment_id").

(** [string | null] as an option. *)
Definition getAttachmentThumbnailUrl (attachment : Attachment.t) (baseUrl : string)
  : option string :=
  if opt_str_truthy (Attachment.thumbnail_url attachment) then
    Some (default "" (Attachment.thumbnail_url attachment))
  else if opt_str_truthy (Attachment.attachment_id attachment) then
    Some (baseUrl ++ "/api/v1/attachments/"
            ++ default "" (Attachment.attachment_id attachment) ++ "/thumbnail")
  else
    None.

(** ** Further definitions used to state the theorems *)

(** The nine fields that the classifier and the guards read. *)
Definition read_fields : list string :=
  [ "event_type"; "form_id"; "events"; "original_message"; "bounce";
    "status"; "message"; "rcpt_to"; "message_id" ].

(** The six properties kept of an attachment. *)
Definition attachment_fields : list string :=
  [ "filename"; "content_type"; "size"; "storage_url"; "attachment_id";
    "thumbnail_url" ].

(** What [extractAttachments] keeps of one element: an object with the six
    properties, each holding the field of the element. *)
Definition kept_properties (attachment : value) : value :=
  JObject {[ "filename" := field attachment "filename";
             "content_type" := field attachment "content_type";
             "size" := field attachment "size";
             "storage_url" := field attachment "storage_url";
             "attachment_id" := field attachment "attachment_id";
             "thumbnail_url" := field attachment "thumbnail_url" ]}.

(** A [string | undefined] that is missing or empty. *)
Definition missing (o : option string) : Prop := o = None \/ o = Some "".

(** The hexadecimal digits in upper case: "a" to "f" become "A" to "F". *)
Definition upper_hex_digit (c : ascii) : ascii :=
  let n := N_of_ascii c in
  if ((97 <=? n) && (n <=? 102))%N then ascii_of_N (n - 32) else c.

Fixpoint upper_hex (s : string) : string :=
  match s with
  | EmptyString => EmptyString
  | String c rest => String (upper_hex_digit c) (upper_hex rest)
  end.

(** The request passes the signature check of the handler: the check is
    switched off, or the verifier answers true. *)
Definition accepted (options : VenmailIntegrationWebhookOptions)
    (req : Request) (raw : Buffer.t) : Prop :=
  default false (allowUnsigned options) = true
  \/ verifyVenmailSignature (secret options) (provided_signature options req)
       (RawBuffer raw) None = Return true.

(** The world after [next(e)], nothing else touched. *)
Definition forwarded (e : error) (w : World) : World :=
  {| res := res w; onEvent_calls := onEvent_calls w; next_calls := next_calls w ++ [e] |}.

(** The world after [onEvent] has been run on [event] and has returned or
    thrown: the call is logged; a throw goes to [next]; after a return the
    handler answers 200 when [autoRespond] is on and nothing was sent. *)
Definition delivered (handle : EventHandler) (autoRespond : bool)
    (event : value) (req : Request) (w : World) : World :=
  let '(outcome, res') := handle event req (res w) in
  match outcome with
  | Throw e =>
      {| res := res'; onEvent_calls := onEvent_calls w ++ [event];
         next_calls := next_calls w ++ [e] |}
  | Return _ =>
      {| res := if autoRespond && negb (headersSent res')
                then status_json 200 ok_body res' else res';
         onEvent_calls := onEvent_calls w ++ [event];
         next_calls := next_calls w |}
  end.

(* ===================================================================== *)
(** * Part II. Lemmas and theorems                                        *)
(* ===================================================================== *)

(** ** The platform primitives *)

Lemma byte_of_N_to_N (x : byte) : Buffer.byte_of_N (Byte.to_N x) = x.
Proof. destruct x; reflexivity. Qed.

Lemma to_N_lt_256 (x : byte) : (Byte.to_N x < 256)%N.
Proof. pose proof (Byte.to_N_bounded x). lia. Qed.

Lemma to_N_inj (x y : byte) : Byte.to_N x = Byte.to_N y -> x = y.
Proof.
  intros H. rewrite <- (byte_of_N_to_N x), <- (byte_of_N_to_N y). now rewrite H.
Qed.

(** Decoding the two digits of a byte gives the byte back. *)
Lemma from_hex_digits (x : byte) (s : string) :
  Buffer.from_hex
    (String (Buffer.hex_digit (Byte.to_N x / 16))
       (String (Buffer.hex_digit (Byte.to_N x mod 16)) s))
  = x :: Buffer.from_hex s.
Proof. destruct x; reflexivity. Qed.

Lemma from_hex_to_hex_app (b : Buffer.t) (s : string) :
  Buffer.from_hex (Buffer.to_hex b ++ s) = (b ++ Buffer.from_hex s)%list.
Proof.
  induction b as [|x b IH]; [reflexivity|].
  change (Buffer.to_hex (x :: b) ++ s)
    with (String (Buffer.hex_digit (Byte.to_N x / 16))
            (String (Buffer.hex_digit (Byte.to_N x mod 16)) (Buffer.to_hex b ++ s))).
  rewrite from_hex_digits, IH. reflexivity.
Qed.

(** [Buffer.from(b.toString("hex"), "hex")] is [b]. *)
Lemma from_hex_to_hex (b : Buffer.t) : Buffer.from_hex (Buffer.to_hex b) = b.
Proof.
  induction b as [|x b IH]; [reflexivity|].
  change (Buffer.to_hex (x :: b))
    with (String (Buffer.hex_digit (Byte.to_N x / 16))
            (String (Buffer.hex_digit (Byte.to_N x mod 16)) (Buffer.to_hex b))).
  rewrite from_hex_digits, IH. reflexivity.
Qed.

Lemma to_hex_length (b : Buffer.t) : String.length (Buffer.to_hex b) = (2 * length b)%nat.
Proof. induction b as [|x b IH]; cbn [Buffer.to_hex String.length length]; lia. Qed.

(** The accumulator of [timingSafeEqual] only grows. *)
Lemma xor_fold_acc (a b : Buffer.t) (acc : N) :
  crypto.xor_fold acc a b = 0%N -> acc = 0%N.
Proof.
  revert b acc. induction a as [|x a IH]; intros [|y b] acc H; cbn in H; try assumption.
  apply IH in H. apply N.lor_eq_0_iff in H. tauto.
Qed.

(** On buffers of one length it is zero exactly when they are equal. *)
Lemma xor_fold_zero (a b : Buffer.t) :
  length a = length b -> (crypto.xor_fold 0 a b = 0%N <-> a = b).
Proof.
  revert b. induction a as [|x a IH]; intros [|y b] Hlen; cbn in Hlen; try discriminate.
  - cbn. tauto.
  - injection Hlen as Hlen. cbn [crypto.xor_fold]. rewrite N.lor_0_l. split.
    + intros H. pose proof (xor_fold_acc _ _ _ H) as Hxy.
      rewrite Hxy in H. apply N.lxor_eq in Hxy. apply to_N_inj in Hxy.
      apply IH in H; [congruence | assumption].
    + intros [= -> ->]. rewrite N.lxor_nilpotent. now apply IH.
Qed.

(** What [crypto.timingSafeEqual] answers. *)
Lemma timingSafeEqual_spec (a b : list byte) :
  crypto.timingSafeEqual a b =
    if decide (length a = length b)
    then Return (bool_decide (a = b))
    else Throw (RangeError "Input buffers must have the same byte length").
Proof.
  unfold crypto.timingSafeEqual.
  destruct (Nat.eqb_spec (length a) (length b)) as [Hlen|Hlen];
    destruct (decide (length a = length b)); try contradiction; [|reflexivity].
  f_equal. pose proof (xor_fold_zero a b Hlen) as Hz.
  destruct (N.eqb_spec (crypto.xor_fold 0 a b) 0) as [Hx|Hx].
  - symmetry. apply bool_decide_eq_true. tauto.
  - symmetry. apply bool_decide_eq_false. tauto.
Qed.

(** Inside [try { ... } catch { return false }] the comparison is byte
    equality. *)
Lemma timingSafeEqual_caught (a b : list byte) :
  try_catch (crypto.timingSafeEqual a b) (fun _ => Return false)
  = Return (bool_decide (a = b)).
Proof.
  rewrite timingSafeEqual_spec. destruct (decide (length a = length b)) as [|Hlen].
  - reflexivity.
  - cbn. f_equal. symmetry. apply bool_decide_eq_false. congruence.
Qed.

(** A SHA-256 digest, and so an HMAC-SHA256 digest, has 32 bytes. *)
Lemma sha256_length (msg : list byte) : length (SHA256.hash msg) = 32%nat.
Proof. unfold SHA256.hash. generalize (SHA256.blocks
  (length (map (fun b => Z.of_N (Byte.to_N b)) msg ++ SHA256.padding (length msg)) / 64)
  (map (fun b => Z.of_N (Byte.to_N b)) msg ++ SHA256.padding (length msg)) SHA256.H0).
  intros s. reflexivity.
Qed.

Lemma hmac_length (key data : list byte) : length (Hmac.sha256 key data) = 32%nat.
Proof. apply sha256_length. Qed.

(** Known answers: FIPS 180-4 (the constants, "abc"), RFC 4231 (test case
    2), and the request signed in the signature tests of the repository. *)
Example sha256_constants :
  firstn 2 SHA256.K = [0x428a2f98; 0x71374491]%Z
  /\ skipn 62 SHA256.K = [0xbef9a3f7; 0xc67178f2]%Z
  /\ SHA256.sa SHA256.H0 = 0x6a09e667%Z /\ SHA256.sh SHA256.H0 = 0x5be0cd19%Z.
Proof. repeat split. Qed.

Example sha256_abc :
  Buffer.to_hex (SHA256.hash (Buffer.from_utf8 "abc"))
  = "ba7816bf8f01cfea414140de5dae2223b00361a396177a9cb410ff61f20015ad".
Proof. vm_compute. reflexivity. Qed.

Example hmac_rfc4231_2 :
  Buffer.to_hex
    (Hmac.sha256 (Buffer.from_utf8 "Jefe") (Buffer.from_utf8 "what do ya want for nothing?"))
  = "5bdcc146bf60754e6a042426089575c75a003f089d2739839dec58b964ec3843".
Proof. vm_compute. reflexivity. Qed.

Example hmac_test_payload :
  Buffer.to_hex
    (Hmac.sha256 (Buffer.from_utf8 "test-secret-key") (Buffer.from_utf8 test_payload))
  = "c66db02bf1c7157fa8624c7d07081aef5803ee15f9494661e6a1688565da8ad6".
Proof. vm_compute. reflexivity. Qed.

(** The codecs on small inputs. *)
Example from_hex_examples :
  Buffer.from_hex "0aFf" = [x0a; xff]
  /\ Buffer.from_hex "abc" = [xab]
  /\ Buffer.from_hex "ab0g12" = [xab]
  /\ Buffer.from_hex "invalid-signature" = []
  /\ Buffer.to_hex [x00; xab; xff] = "00abff".
Proof. repeat split. Qed.

Example from_base64_examples :
  Buffer.to_base64 (Buffer.from_utf8 "Man") = "TWFu"
  /\ Buffer.to_base64 (Buffer.from_utf8 "Ma") = "TWE="
  /\ Buffer.to_base64 (Buffer.from_utf8 "M") = "TQ=="
  /\ Buffer.from_base64 "TWE=" = Buffer.from_utf8 "Ma"
  /\ Buffer.from_base64 "T W-E_u" = Buffer.from_base64 "TW+E/u"
  /\ Buffer.from_base64 "TQ==TWFu" = Buffer.from_utf8 "M".
Proof. repeat split. Qed.

Example from_utf8_examples :
  Buffer.from_utf8 "abc" = ["a"%byte; "b"%byte; "c"%byte]
  /\ Buffer.from_utf8 (String (ascii_of_nat 233) EmptyString) = [xc3; xa9]
  /\ Buffer.from_utf8 (String (ascii_of_nat 128) EmptyString) = [xc2; x80].
Proof. repeat split. Qed.

Example timingSafeEqual_examples :
  crypto.timingSafeEqual [x01; x02] [x01; x02] = Return true
  /\ crypto.timingSafeEqual [x01; x02] [x01; x03] = Return false
  /\ crypto.timingSafeEqual [x01; x02] [x01]
     = Throw (RangeError "Input buffers must have the same byte length").
Proof. repeat split. Qed.

Lemma str_falsy_false (s : string) : str_falsy s = false <-> s <> "".
Proof. unfold str_falsy. destruct (String.eqb_spec s ""); split; congruence. Qed.

Lemma to_hex_truthy (b : list byte) : length b = 32%nat -> str_falsy (Buffer.to_hex b) = false.
Proof.
  intros Hlen. apply str_falsy_false. intros Heq.
  pose proof (to_hex_length b) as H. rewrite Heq, Hlen in H. discriminate.
Qed.

Lemma unbase64_digit (d : N) : (d < 64)%N -> Buffer.unbase64 (Buffer.base64_digit d) = Some d.
Proof.
  intros H.
  assert (Hall : forallb (fun n => match Buffer.unbase64 (Buffer.base64_digit n) with
                                   | Some m => N.eqb m n | None => false end)
                   (map N.of_nat (seq 0 64)) = true) by (vm_compute; reflexivity).
  rewrite forallb_forall in Hall. specialize (Hall d).
  destruct (Buffer.unbase64 (Buffer.base64_digit d)) as [m|].
  - f_equal. apply N.eqb_eq, Hall. apply in_map_iff. exists (N.to_nat d). split; [lia|].
    apply in_seq. lia.
  - exfalso. enough (false = true) by discriminate. apply Hall.
    apply in_map_iff. exists (N.to_nat d). split; [lia|]. apply in_seq. lia.
Qed.

Lemma byte_of_N_eq (n : N) (x : byte) : (n mod 256 = Byte.to_N x)%N -> Buffer.byte_of_N n = x.
Proof. intros H. unfold Buffer.byte_of_N. rewrite H, Byte.of_to_N. reflexivity. Qed.

(** Arithmetic on the values of bytes, with divisions by constants. *)
Ltac bytes_arith :=
  repeat match goal with
         | |- context [Byte.to_N ?x] =>
             let n := fresh "n" in
             pose proof (to_N_lt_256 x); set (n := Byte.to_N x) in *; clearbody n
         end;
  zify; Z.to_euclidean_division_equations; lia.

(** A full group of three bytes. *)
Lemma from_base64_group (x y z : byte) (rest : list byte) :
  Buffer.from_base64 (Buffer.to_base64 (x :: y :: z :: rest))
  = x :: y :: z :: Buffer.from_base64 (Buffer.to_base64 rest).
Proof.
  unfold Buffer.from_base64.
  cbn [Buffer.to_base64 Buffer.base64_sextets]. cbv zeta.
  repeat (rewrite unbase64_digit by bytes_arith).
  cbn [Buffer.bytes_of_sextets].
  f_equal; [|f_equal; [|f_equal]]; apply byte_of_N_eq; bytes_arith.
Qed.

Lemma from_base64_one (x : byte) : Buffer.from_base64 (Buffer.to_base64 [x]) = [x].
Proof.
  unfold Buffer.from_base64.
  cbn [Buffer.to_base64 Buffer.base64_sextets]. cbv zeta.
  repeat (rewrite unbase64_digit by bytes_arith).
  cbn. f_equal. apply byte_of_N_eq; bytes_arith.
Qed.

Lemma from_base64_two (x y : byte) : Buffer.from_base64 (Buffer.to_base64 [x; y]) = [x; y].
Proof.
  unfold Buffer.from_base64.
  cbn [Buffer.to_base64 Buffer.base64_sextets]. cbv zeta.
  repeat (rewrite unbase64_digit by bytes_arith).
  cbn. f_equal; [|f_equal]; apply byte_of_N_eq; bytes_arith.
Qed.

(** [Buffer.from(b.toString("base64"), "base64")] is [b]. *)
Lemma from_base64_to_base64 (b : list byte) :
  Buffer.from_base64 (Buffer.to_base64 b) = b.
Proof.
  enough (H : Buffer.from_base64 (Buffer.to_base64 b) = b
              /\ (forall x, Buffer.from_base64 (Buffer.to_base64 (x :: b)) = x :: b)
              /\ (forall x y, Buffer.from_base64 (Buffer.to_base64 (x :: y :: b)) = x :: y :: b))
    by apply H.
  induction b as [|z b (IH0 & IH1 & IH2)].
  - split; [reflexivity|]. split; [apply from_base64_one | apply from_base64_two].
  - split; [apply IH1|]. split; [intros x; apply IH2|].
    intros x y. rewrite from_base64_group, IH0. reflexivity.
Qed.

(** Both encodings decode the digest they produced. *)
Lemma Buffer_from_digest (enc : encoding) (d : list byte) :
  Buffer_from (digest enc d) enc = d.
Proof. destruct enc; [apply from_hex_to_hex | apply from_base64_to_base64]. Qed.

(** ** UTF-8 bytes of strings *)

Lemma utf8_chars_char (c : ascii) (b : list byte) :
  utf8_chars (Buffer.utf8_of_char c ++ b) = String c (utf8_chars b).
Proof. destruct c as [[] [] [] [] [] [] [] []]; reflexivity. Qed.

Lemma utf8_chars_from_utf8 (s : string) : utf8_chars (Buffer.from_utf8 s) = s.
Proof.
  induction s as [|c s IH]; [reflexivity|].
  cbn [Buffer.from_utf8]. rewrite utf8_chars_char, IH. reflexivity.
Qed.

(** Different strings have different UTF-8 bytes. *)
Lemma from_utf8_inj (s1 s2 : string) :
  Buffer.from_utf8 s1 = Buffer.from_utf8 s2 -> s1 = s2.
Proof.
  intros H. rewrite <- (utf8_chars_from_utf8 s1), <- (utf8_chars_from_utf8 s2).
  now rewrite H.
Qed.

(** ** The two verifiers *)

(** With a secret, [verifyVenmailSignature] returns, and returns true exactly
    for a non-empty signature whose decoded bytes are the digest. *)
Lemma verifyVenmailSignature_spec
    (secret signature : string) (rawBody : raw_body) (enc : option encoding) :
  secret <> "" ->
  verifyVenmailSignature secret signature rawBody enc
  = Return (bool_decide (signature <> ""
                         /\ Buffer_from signature (default hex enc)
                            = expected_digest secret rawBody)).
Proof.
  intros Hsecret. unfold verifyVenmailSignature.
  apply str_falsy_false in Hsecret. rewrite Hsecret.
  destruct (str_falsy signature) eqn:Hsig.
  - f_equal. symmetry. apply bool_decide_eq_false.
    unfold str_falsy in Hsig. apply String.eqb_eq in Hsig. tauto.
  - apply str_falsy_false in Hsig.
    rewrite timingSafeEqual_caught, Buffer_from_digest. f_equal.
    apply bool_decide_ext. unfold expected_digest, signed_bytes. tauto.
Qed.

(** With a secret, [verifySharedSecretHeader] returns, and returns true
    exactly when the secret itself is provided. *)
Lemma verifySharedSecretHeader_spec (secret : string) (provided : option string) :
  secret <> "" ->
  verifySharedSecretHeader secret provided = Return (bool_decide (provided = Some secret)).
Proof.
  intros Hsecret. unfold verifySharedSecretHeader.
  rewrite (proj2 (str_falsy_false secret) Hsecret).
  destruct provided as [p|].
  - destruct (str_falsy p) eqn:Hp.
    + f_equal. symmetry. apply bool_decide_eq_false.
      unfold str_falsy in Hp. apply String.eqb_eq in Hp. congruence.
    + rewrite timingSafeEqual_caught. f_equal. apply bool_decide_ext. split.
      * intros H. apply from_utf8_inj in H. congruence.
      * intros [= ->]. reflexivity.
  - reflexivity.
Qed.

(** C1. For every non-empty secret and every byte payload [P], the verifier
    called with the secret, the lowercase hexadecimal HMAC-SHA256 digest of
    [P] under the secret as signature, [P] as [rawBody] and the default
    encoding (or "hex" spelled out) returns true. *)
Theorem verifyVenmailSignature_accepts_hmac_hex (secret : string) (P : list byte) :
  secret <> "" ->
  verifyVenmailSignature secret
    (Buffer.to_hex (Hmac.sha256 (Buffer.from_utf8 secret) P)) (RawBuffer P) None
  = Return true
  /\ verifyVenmailSignature secret
       (Buffer.to_hex (Hmac.sha256 (Buffer.from_utf8 secret) P)) (RawBuffer P) (Some hex)
     = Return true.
Proof.
  intros Hsecret.
  assert (Hsig : Buffer.to_hex (Hmac.sha256 (Buffer.from_utf8 secret) P) <> "").
  { apply str_falsy_false, to_hex_truthy, hmac_length. }
  split; rewrite verifyVenmailSignature_spec by assumption; f_equal;
    apply bool_decide_eq_true; (split; [assumption | apply from_hex_to_hex]).
Qed.

(** The request of the repository's test "should verify valid HMAC
    signature", with the body as bytes. *)
Lemma verifyVenmailSignature_accepts_hmac_hex_witness :
  "test-secret-key" <> ""
  /\ verifyVenmailSignature "test-secret-key"
       (Buffer.to_hex (Hmac.sha256 (Buffer.from_utf8 "test-secret-key")
                         (Buffer.from_utf8 test_payload)))
       (RawBuffer (Buffer.from_utf8 test_payload)) None = Return true.
Proof.
  assert (H : "test-secret-key" <> "") by discriminate.
  exact (conj H (proj1 (verifyVenmailSignature_accepts_hmac_hex
                          "test-secret-key" (Buffer.from_utf8 test_payload) H))).
Defined.

(** Strings two characters at a time. *)
Lemma string_pairs_ind (P : string -> Prop) :
  P "" -> (forall a, P (String a "")) ->
  (forall a b s, P s -> P (String a (String b s))) ->
  forall s, P s.
Proof.
  intros H0 H1 H2 s.
  enough (H : P s /\ forall a, P (String a s)) by apply H.
  induction s as [|b s [IHs IHa]]; [split; [exact H0 | exact H1]|].
  split; [apply IHa|]. intros a. apply H2, IHs.
Qed.

(** A signature that is not an even run of hexadecimal digits loses at least
    one character in the decoding. *)
Lemma from_hex_malformed (s : string) :
  hex_string s = false -> (2 * length (Buffer.from_hex s) < String.length s)%nat.
Proof.
  induction s as [|a|a b s IH] using string_pairs_ind; intros H.
  - discriminate.
  - cbn. lia.
  - cbn [hex_string] in H. cbn [Buffer.from_hex String.length].
    destruct (Buffer.unhex a), (Buffer.unhex b); cbn [length]; try lia.
    specialize (IH H). lia.
Qed.

(** A malformed hexadecimal signature of at most 64 characters is rejected:
    it cannot decode to the 32 bytes of a digest. *)
Lemma malformed_hex_rejected
    (secret signature : string) (rawBody : raw_body) (enc : option encoding) :
  secret <> "" -> default hex enc = hex -> hex_string signature = false ->
  (String.length signature <= 64)%nat ->
  verifyVenmailSignature secret signature rawBody enc = Return false.
Proof.
  intros Hsecret Henc Hbad Hlen. rewrite verifyVenmailSignature_spec by assumption.
  f_equal. apply bool_decide_eq_false. rewrite Henc. intros [_ Heq].
  apply (f_equal (@length byte)) in Heq. unfold expected_digest in Heq.
  rewrite hmac_length in Heq. apply from_hex_malformed in Hbad.
  cbn [Buffer_from] in Heq. lia.
Qed.

(** Whatever follows the digits of the digest is ignored when it does not
    start with two more digits: such a signature is accepted. *)
Lemma trailing_characters_accepted
    (secret : string) (rawBody : raw_body) (trailer : string) :
  secret <> "" -> Buffer.from_hex trailer = [] ->
  verifyVenmailSignature secret
    (Buffer.to_hex (expected_digest secret rawBody) ++ trailer) rawBody None
  = Return true.
Proof.
  intros Hsecret Htrailer. rewrite verifyVenmailSignature_spec by assumption.
  f_equal. apply bool_decide_eq_true. split.
  - intros Heq. pose proof (to_hex_length (expected_digest secret rawBody)) as Hlen.
    unfold expected_digest at 2 in Hlen. rewrite hmac_length in Hlen.
    destruct (Buffer.to_hex (expected_digest secret rawBody));
      [discriminate Hlen | discriminate Heq].
  - cbn [default Buffer_from]. rewrite from_hex_to_hex_app, Htrailer. apply app_nil_r.
Qed.

(** The claim of C5 fails on a malformed signature: the 64 digits of the
    digest followed by two characters that are no digits are decoded to the
    digest, and the verifier answers true. *)
Lemma verifyVenmailSignature_malformed_accepted :
  hex_string "c66db02bf1c7157fa8624c7d07081aef5803ee15f9494661e6a1688565da8ad6zz" = false
  /\ verifyVenmailSignature "test-secret-key"
       "c66db02bf1c7157fa8624c7d07081aef5803ee15f9494661e6a1688565da8ad6zz"
       (RawString test_payload) None
     = Return true.
Proof. split; vm_compute; reflexivity. Qed.

(** C5, amended. With a non-empty secret neither verifier throws.
    [verifyVenmailSignature] returns false when the signature is empty, when
    the bytes [Buffer.from] decodes from it under the requested encoding are
    not the computed digest, and so when a hexadecimal signature is malformed
    and no longer than the 64 digits of a digest. [verifySharedSecretHeader]
    returns false when [provided] is null or undefined, empty, or different
    from the secret (in its UTF-8 bytes, and so as a string). *)
Theorem verification_failure_returns_false
    (secret signature : string) (rawBody : raw_body) (enc : option encoding)
    (provided : option string) :
  secret <> "" ->
  (exists b, verifyVenmailSignature secret signature rawBody enc = Return b)
  /\ (signature = ""
      \/ Buffer_from signature (default hex enc) <> expected_digest secret rawBody ->
      verifyVenmailSignature secret signature rawBody enc = Return false)
  /\ (default hex enc = hex -> hex_string signature = false ->
      (String.length signature <= 64)%nat ->
      verifyVenmailSignature secret signature rawBody enc = Return false)
  /\ (exists b, verifySharedSecretHeader secret provided = Return b)
  /\ (provided = None \/ provided = Some ""
      \/ (exists p, provided = Some p /\ Buffer.from_utf8 p <> Buffer.from_utf8 secret)
      \/ provided <> Some secret ->
      verifySharedSecretHeader secret provided = Return false).
Proof.
  intros Hsecret.
  rewrite verifyVenmailSignature_spec, verifySharedSecretHeader_spec by assumption.
  assert (Hneq : Buffer_from signature (default hex enc) <> expected_digest secret rawBody ->
                 Return (bool_decide (signature <> ""
                     /\ Buffer_from signature (default hex enc)
                        = expected_digest secret rawBody)) = Return false).
  { intros H. f_equal. apply bool_decide_eq_false. tauto. }
  split; [eexists; reflexivity|]. split; [|split; [|split; [eexists; reflexivity|]]].
  - intros [->|H]; [reflexivity | exact (Hneq H)].
  - intros Henc Hbad Hlen.
    rewrite <- (verifyVenmailSignature_spec secret signature rawBody enc Hsecret).
    now apply malformed_hex_rejected.
  - intros H. f_equal. apply bool_decide_eq_false.
    destruct H as [->|[->|[(p & -> & H)|H]]]; congruence.
Qed.

(** The rejected requests of the repository's tests "should reject invalid
    signature" and "should reject incorrect shared secret". *)
Lemma verification_failure_returns_false_witness :
  verifyVenmailSignature "test-secret-key" "invalid-signature" (RawString test_payload) None
  = Return false
  /\ verifySharedSecretHeader "test-secret-key" (Some "wrong-secret") = Return false.
Proof.
  assert (Hsecret : "test-secret-key" <> "") by discriminate.
  pose proof (verification_failure_returns_false "test-secret-key" "invalid-signature"
                (RawString test_payload) None (Some "wrong-secret") Hsecret)
    as (_ & _ & Hmalformed & _ & Hshared).
  split.
  - apply Hmalformed; [reflexivity | reflexivity | cbn; lia].
  - apply Hshared. right. right. right. discriminate.
Defined.

(** The tests of the repository on the two verifiers, and the base64
    encoding. *)
Example verifyVenmailSignature_tests :
  verifyVenmailSignature "test-secret-key"
    "c66db02bf1c7157fa8624c7d07081aef5803ee15f9494661e6a1688565da8ad6"
    (RawString test_payload) None = Return true
  /\ verifyVenmailSignature "test-secret-key" "invalid-signature"
       (RawString test_payload) None = Return false
  /\ verifyVenmailSignature "test-secret-key" "" (RawString test_payload) None
     = Return false
  /\ verifyVenmailSignature "test-secret-key"
       "xm2wK/HHFX+oYkx9Bwga71gD7hX5SUZh5qFohWXaitY="
       (RawString test_payload) (Some base64) = Return true.
Proof. split; [|split; [|split]]; vm_compute; reflexivity. Qed.

Example verifySharedSecretHeader_tests :
  verifySharedSecretHeader "shared-secret-value" (Some "shared-secret-value") = Return true
  /\ verifySharedSecretHeader "shared-secret-value" (Some "wrong-secret") = Return false
  /\ verifySharedSecretHeader "shared-secret-value" (Some "shared-secret-valux")
     = Return false
  /\ verifySharedSecretHeader "shared-secret-value" None = Return false.
Proof. repeat split. Qed.

(** C4. With an empty secret, whatever the other arguments, both verifiers
    throw their configuration error; neither returns (so neither answers
    false). *)
Theorem empty_secret_throws
    (signature : string) (rawBody : raw_body) (enc : option encoding)
    (provided : option string) :
  verifyVenmailSignature "" signature rawBody enc
  = Throw (Error "Venmail signature validation requires a secret")
  /\ verifySharedSecretHeader "" provided
     = Throw (Error "Missing expected secret for header validation")
  /\ (forall b, verifyVenmailSignature "" signature rawBody enc <> Return b)
  /\ (forall b, verifySharedSecretHeader "" provided <> Return b).
Proof.
  split; [reflexivity|]. split; [reflexivity|]. split; intros b; discriminate.
Qed.

(** ** Reading the fields of a payload *)

Lemma truthy_not_nullish (v : value) : truthy v = true -> nullish v = false.
Proof. destruct v; cbn; congruence. Qed.

Example truthy_examples :
  truthy (JNumber 0) = false /\ truthy (JNumber (-0)) = false
  /\ truthy (JNumber nan) = false /\ truthy (JNumber 123) = true
  /\ truthy (JString "") = false /\ truthy (JString "0") = true
  /\ truthy (JArray []) = true /\ truthy (JObject ∅) = true
  /\ truthy JNull = false /\ truthy JUndefined = false.
Proof. repeat split. Qed.

(** A read on a truthy value does not throw: it yields the field. *)
Lemma prop_truthy (v : value) (key : string) :
  truthy v = true -> prop v key = Return (field v key).
Proof. destruct v; cbn; congruence. Qed.

Lemma opt_prop_field (v : value) (key : string) : opt_prop v key = Return (field v key).
Proof. destruct v; reflexivity. Qed.

(** A falsy payload has no field. *)
Lemma field_falsy (v : value) (key : string) : truthy v = false -> field v key = JUndefined.
Proof. destruct v; cbn; congruence. Qed.

Lemma typeof_string (v : value) : String.eqb (typeof v) "string" = is_string v.
Proof. destruct v; reflexivity. Qed.

(** [a && b] on two fields of a truthy payload. *)
Lemma js_and_fields (v : value) (k1 k2 : string) :
  truthy v = true ->
  exists r, js_and (prop v k1) (prop v k2) = Return r
            /\ truthy r = truthy (field v k1) && truthy (field v k2).
Proof.
  intros Hv. unfold js_and. rewrite !prop_truthy by assumption. cbn [bind].
  destruct (truthy (field v k1)) eqn:H1.
  - eexists. split; [reflexivity|]. reflexivity.
  - eexists. split; [reflexivity|]. rewrite H1. reflexivity.
Qed.

(** The classifier, read through the fields of the payload. *)
Lemma detectVenmailWebhookKind_fields (payload : value) :
  detectVenmailWebhookKind payload =
  Return
    (if integration_shape payload then only_kind integration
     else if form_shape payload then only_kind form
     else if bounce_shape payload then
       let id := extractCampaignId (field (field payload "original_message") "tag") in
       {| kind := bounce; isCampaignEvent := Some (Boolean_id id); campaignId := Some id |}
     else if status_shape payload then
       let id := extractCampaignId (field (field payload "message") "tag") in
       {| kind := status; isCampaignEvent := Some (Boolean_id id); campaignId := Some id |}
     else if mail_shape payload then only_kind mail
     else only_kind unknown).
Proof.
  unfold detectVenmailWebhookKind, integration_shape, form_shape, bounce_shape,
    status_shape, mail_shape.
  destruct (truthy payload) eqn:Hp; cbn [negb].
  2: { destruct payload; try discriminate Hp; reflexivity. }
  rewrite prop_truthy by assumption. cbn [bind]. rewrite typeof_string.
  destruct (is_string (field payload "event_type")); [reflexivity|].
  destruct (js_and_fields payload "form_id" "events" Hp) as (r1 & E & T).
  rewrite E; cbn [bind]; rewrite T; clear E T r1.
  destruct (truthy (field payload "form_id") && truthy (field payload "events"));
    [reflexivity|].
  destruct (js_and_fields payload "original_message" "bounce" Hp) as (r2 & E & T).
  rewrite E; cbn [bind]; rewrite T; clear E T r2.
  destruct (truthy (field payload "original_message") && truthy (field payload "bounce")).
  { rewrite prop_truthy by assumption. cbn [bind]. rewrite opt_prop_field. reflexivity. }
  destruct (js_and_fields payload "status" "message" Hp) as (r3 & E & T).
  rewrite E; cbn [bind]; rewrite T; clear E T r3.
  destruct (truthy (field payload "status") && truthy (field payload "message")).
  { rewrite prop_truthy by assumption. cbn [bind]. rewrite opt_prop_field. reflexivity. }
  destruct (js_and_fields payload "rcpt_to" "message_id" Hp) as (r4 & E & T).
  rewrite E; cbn [bind]; rewrite T; clear E T r4.
  destruct (truthy (field payload "rcpt_to") && truthy (field payload "message_id"));
    reflexivity.
Qed.

(** The kind that the classifier returns. *)
Lemma detectVenmailWebhookKind_kind (payload : value) :
  exists i, detectVenmailWebhookKind payload = Return i /\ kind i = first_match payload.
Proof.
  rewrite detectVenmailWebhookKind_fields. eexists. split; [reflexivity|].
  unfold first_match.
  destruct (integration_shape payload); [reflexivity|].
  destruct (form_shape payload); [reflexivity|].
  destruct (bounce_shape payload); [reflexivity|].
  destruct (status_shape payload); [reflexivity|].
  destruct (mail_shape payload); reflexivity.
Qed.

(** C2. The classifier returns for every payload, and the kind it returns is
    the first of Integration, Form, Bounce, Status, Mail whose shape the
    payload matches, Unknown when none does. In particular a payload object
    with a string [event_type] and truthy [rcpt_to] and [message_id] (a Mail
    shape as well) is classified "integration". *)
Theorem detectVenmailWebhookKind_first_match (payload : value) :
  (exists i, detectVenmailWebhookKind payload = Return i /\ kind i = first_match payload)
  /\ (forall props s,
        payload = JObject props ->
        props !! "event_type" = Some (JString s) ->
        truthy (field payload "rcpt_to") = true ->
        truthy (field payload "message_id") = true ->
        mail_shape payload = true
        /\ detectVenmailWebhookKind payload = Return (only_kind integration)).
Proof.
  split; [apply detectVenmailWebhookKind_kind|].
  intros props s -> Hev Hrcpt Hid. split.
  - unfold mail_shape. rewrite Hrcpt, Hid. reflexivity.
  - rewrite detectVenmailWebhookKind_fields. unfold integration_shape.
    cbn [field]. rewrite Hev. reflexivity.
Qed.

(** The payloads of the repository's type-guard tests, and one that is both
    an integration event and a mail. *)
Example detect_integration_over_mail :
  detectVenmailWebhookKind
    (JObject {[ "event_type" := JString "MailReceived";
                "rcpt_to" := JString "test@example.com";
                "message_id" := JString "test-message-id" ]})
  = Return (only_kind integration).
Proof. reflexivity. Qed.

Example detect_mail :
  detectVenmailWebhookKind
    (JObject {[ "message_id" := JString "test-message-id";
                "rcpt_to" := JString "test@example.com";
                "to" := JString "test@example.com";
                "from" := JString "sender@example.com" ]})
  = Return (only_kind mail).
Proof. reflexivity. Qed.

Example detect_status :
  detectVenmailWebhookKind
    (JObject {[ "status" := JString "MessageDelivered";
                "message" := JObject {[ "message_id" := JString "test-message-id";
                                        "to" := JString "test@example.com";
                                        "tag" := JString "campaign:123" ]} ]})
  = Return {| kind := status; isCampaignEvent := Some true;
              campaignId := Some (Some "123") |}.
Proof. reflexivity. Qed.

Example detect_unknown :
  detectVenmailWebhookKind (JObject {[ "random" := JString "data" ]})
  = Return (only_kind unknown)
  /\ detectVenmailWebhookKind JUndefined = Return (only_kind unknown).
Proof. split; reflexivity. Qed.

(** ** The shape guards and the normaliser *)

(** [payload && payload.k1 && payload.k2], as a boolean. *)
Lemma guard_fields (payload : value) (k1 k2 : string) :
  bind (js_and (js_and (Return payload) (prop payload k1)) (prop payload k2))
    (fun r => Return (truthy r))
  = Return (truthy (field payload k1) && truthy (field payload k2)).
Proof.
  unfold js_and. cbn [bind]. destruct (truthy payload) eqn:Hp.
  - rewrite !prop_truthy by assumption. cbn [bind].
    destruct (truthy (field payload k1)) eqn:H1; cbn [bind]; [reflexivity|].
    rewrite H1. reflexivity.
  - cbn [bind]. rewrite Hp. cbn [bind]. rewrite Hp.
    rewrite (field_falsy payload k1) by assumption. reflexivity.
Qed.

Lemma isBouncePayload_shape (payload : value) :
  isBouncePayload payload = Return (bounce_shape payload).
Proof. apply guard_fields. Qed.

Lemma isStatusPayload_shape (payload : value) :
  isStatusPayload payload = Return (status_shape payload).
Proof. apply guard_fields. Qed.

Lemma isMailWebhookPayload_shape (payload : value) :
  isMailWebhookPayload payload = Return (mail_shape payload).
Proof.
  unfold isMailWebhookPayload, mail_shape. cbv zeta. rewrite guard_fields.
  f_equal. apply andb_comm.
Qed.

Lemma shape_truthy (payload : value) (k1 k2 : string) :
  truthy (field payload k1) && truthy (field payload k2) = true ->
  truthy payload = true /\ truthy (field payload k1) = true
  /\ truthy (field payload k2) = true.
Proof.
  intros H. apply andb_prop in H as [H1 H2]. repeat split; try assumption.
  destruct (truthy payload) eqn:Hp; [reflexivity|].
  rewrite (field_falsy payload k1) in H1 by assumption. discriminate.
Qed.

(** C3. The normaliser returns for every input, and its result is decided by
    testing the Bounce shape first and the Status shape second: a Bounce
    shape (also when the Status shape matches too) gives the status
    "MessageBounced" with messageId, recipient and campaignId read from
    [original_message]; otherwise a Status shape gives the status field of the
    input, unchanged, with messageId, recipient and campaignId read from
    [message]; every other input gives the status "Unknown", undefined
    messageId and recipient, and a null campaignId. *)
Theorem normalizeDeliveryEvent_bounce_then_status (payload : value) :
  normalizeDeliveryEvent payload =
  Return
    (if bounce_shape payload then
       {| messageId := field (field payload "original_message") "message_id";
          recipient := field (field payload "original_message") "to";
          nstatus := JString "MessageBounced";
          ncampaignId := extractCampaignId (field (field payload "original_message") "tag");
          npayload := payload |}
     else if status_shape payload then
       {| messageId := field (field payload "message") "message_id";
          recipient := field (field payload "message") "to";
          nstatus := field payload "status";
          ncampaignId := extractCampaignId (field (field payload "message") "tag");
          npayload := payload |}
     else
       {| messageId := JUndefined;
          recipient := JUndefined;
          nstatus := JString "Unknown";
          ncampaignId := None;
          npayload := payload |}).
Proof.
  unfold normalizeDeliveryEvent.
  rewrite isBouncePayload_shape. cbn [bind].
  destruct (bounce_shape payload) eqn:Hb.
  { apply shape_truthy in Hb as (Hp & Hm & _).
    rewrite prop_truthy by assumption. cbn [bind].
    rewrite !opt_prop_field. reflexivity. }
  rewrite isStatusPayload_shape. cbn [bind].
  destruct (status_shape payload) eqn:Hs; [|reflexivity].
  apply shape_truthy in Hs as (Hp & _ & Hm).
  unfold js_coalesce. rewrite !(prop_truthy payload) by assumption. cbn [bind].
  rewrite (truthy_not_nullish _ Hm). cbn [bind].
  rewrite !prop_truthy by assumption. reflexivity.
Qed.

(** The two payloads of the repository's normalisation tests, one that has
    both shapes, and one that has neither. *)
Example normalize_status :
  normalizeDeliveryEvent
    (JObject {[ "status" := JString "MessageDelivered";
                "message" := JObject {[ "message_id" := JString "test-id";
                                        "to" := JString "test@example.com";
                                        "tag" := JString "campaign:123" ]} ]})
  = Return
      {| messageId := JString "test-id";
         recipient := JString "test@example.com";
         nstatus := JString "MessageDelivered";
         ncampaignId := Some "123";
         npayload :=
           JObject {[ "status" := JString "MessageDelivered";
                      "message" := JObject {[ "message_id" := JString "test-id";
                                              "to" := JString "test@example.com";
                                              "tag" := JString "campaign:123" ]} ]} |}.
Proof. reflexivity. Qed.

Example normalize_bounce_and_status :
  let payload :=
    JObject {[ "status" := JString "MessageDelivered";
               "message" := JObject {[ "message_id" := JString "m1" ]};
               "original_message" := JObject {[ "message_id" := JString "m2";
                                                "tag" := JString "campaign:456" ]};
               "bounce" := JObject {[ "type" := JString "permanent" ]} ]} in
  normalizeDeliveryEvent payload
  = Return
      {| messageId := JString "m2";
         recipient := JUndefined;
         nstatus := JString "MessageBounced";
         ncampaignId := Some "456";
         npayload := payload |}.
Proof. reflexivity. Qed.

Example normalize_unknown :
  normalizeDeliveryEvent JNull
  = Return
      {| messageId := JUndefined; recipient := JUndefined;
         nstatus := JString "Unknown"; ncampaignId := None; npayload := JNull |}.
Proof. reflexivity. Qed.

(** ** Campaign tags *)

Lemma split_colon_head (s : string) :
  exists pieces, split_colon s = until_colon s :: pieces.
Proof.
  induction s as [|c s (pieces & IH)]; [eexists; reflexivity|].
  cbn [split_colon until_colon]. destruct (Ascii.eqb c ":").
  - eexists. reflexivity.
  - rewrite IH. eexists. reflexivity.
Qed.

(** After the prefix "campaign:", the second piece of the split is what
    precedes the next colon. *)
Lemma split_colon_campaign (id : string) :
  split_colon ("campaign:" ++ id) !! 1%nat = Some (until_colon id).
Proof.
  destruct (split_colon_head id) as (pieces & H).
  change (split_colon ("campaign:" ++ id)) with ("campaign" :: split_colon id).
  rewrite H. reflexivity.
Qed.

Lemma until_colon_no_colon (s : string) :
  (forall a b, s <> a ++ ":" ++ b) -> until_colon s = s.
Proof.
  induction s as [|c s IH]; intros Hno; [reflexivity|].
  cbn [until_colon]. destruct (Ascii.eqb_spec c ":") as [->|Hc].
  - exfalso. apply (Hno "" s). reflexivity.
  - f_equal. apply IH. intros a b ->. apply (Hno (String c a) b). reflexivity.
Qed.

Lemma prefix_split (p s : string) :
  String.prefix p s = true -> exists rest, s = p ++ rest.
Proof.
  revert s. induction p as [|c p IH]; intros s H.
  - exists s. reflexivity.
  - destruct s as [|d s]; cbn in H; [discriminate|].
    destruct (Ascii.ascii_dec c d) as [->|]; [|discriminate].
    apply IH in H as (rest & ->). exists rest. reflexivity.
Qed.

Lemma prefix_append (p rest : string) : String.prefix p (p ++ rest) = true.
Proof.
  induction p as [|c p IH]; [destruct rest; reflexivity|].
  change (String.prefix (String c p) (String c p ++ rest))
    with (if Ascii.ascii_dec c c then String.prefix p (p ++ rest) else false).
  destruct (Ascii.ascii_dec c c); [exact IH | contradiction].
Qed.

(** The claim of C7 fails on a tag with a second colon: the id stops there. *)
Lemma extractCampaignId_second_colon :
  extractCampaignId (JString ("campaign:" ++ "a:b")) = Some "a"
  /\ extractCampaignId (JString ("campaign:" ++ "a:b")) <> Some "a:b".
Proof. split; [reflexivity | discriminate]. Qed.

(** C7, amended. For a tag "campaign:" followed by [id], the campaign id is
    the part of [id] before its first colon, so the whole of [id] when it has
    no colon; for every other value of the tag, an absent tag included, the
    result is null. *)
Theorem extractCampaignId_convention (tag : value) :
  (forall id, tag = JString ("campaign:" ++ id) ->
     extractCampaignId tag = Some (until_colon id)
     /\ ((forall a b, id <> a ++ ":" ++ b) -> extractCampaignId tag = Some id))
  /\ ((forall id, tag <> JString ("campaign:" ++ id)) -> extractCampaignId tag = None).
Proof.
  split.
  - intros id ->.
    assert (H : extractCampaignId (JString ("campaign:" ++ id)) = Some (until_colon id)).
    { unfold extractCampaignId.
      change (truthy (JString ("campaign:" ++ id))) with true.
      change (typeof (JString ("campaign:" ++ id))) with "string".
      cbn [negb orb String.eqb Ascii.eqb Bool.eqb].
      rewrite prefix_append, split_colon_campaign. reflexivity. }
    split; [exact H|]. intros Hno. rewrite H, until_colon_no_colon by assumption.
    reflexivity.
  - intros Hother. unfold extractCampaignId.
    destruct tag as [| | | |s| |]; try reflexivity;
      try (destruct (negb (truthy _)); reflexivity).
    destruct (negb (truthy (JString s)) || negb (String.eqb (typeof (JString s)) "string"));
      [reflexivity|].
    destruct (String.prefix "campaign:" s) eqn:Hp; [|reflexivity].
    apply prefix_split in Hp as (rest & ->). exfalso. apply (Hother rest). reflexivity.
Qed.

Example extractCampaignId_examples :
  extractCampaignId (JString "campaign:123") = Some "123"
  /\ extractCampaignId (JString "campaign:") = Some ""
  /\ extractCampaignId (JString "Campaign:123") = None
  /\ extractCampaignId (JString "campaign") = None
  /\ extractCampaignId JUndefined = None
  /\ extractCampaignId (JArray [JString "campaign:1"]) = None.
Proof. repeat split. Qed.

(** The claim of C8 fails for the tag "campaign:": the id is the empty
    string, which is not null, and the event is not a campaign event. *)
Lemma detect_empty_campaign_id :
  detectVenmailWebhookKind
    (JObject {[ "status" := JString "MessageDelivered";
                "message" := JObject {[ "tag" := JString "campaign:" ]} ]})
  = Return {| kind := status; isCampaignEvent := Some false;
              campaignId := Some (Some "") |}.
Proof. reflexivity. Qed.

(** C8, amended. For a payload classified as bounce or status, both fields
    are set, and [isCampaignEvent] is true exactly when [campaignId] is a
    non-empty string (neither null nor the empty string). *)
Theorem isCampaignEvent_iff_nonempty_id (payload : value) (i : VenmailWebhookInspection) :
  detectVenmailWebhookKind payload = Return i ->
  kind i = bounce \/ kind i = status ->
  exists id flag,
    campaignId i = Some id /\ isCampaignEvent i = Some flag
    /\ (flag = true <-> exists s, id = Some s /\ s <> "").
Proof.
  intros Hd Hk. rewrite detectVenmailWebhookKind_fields in Hd.
  assert (Hid : forall id : option string,
             Boolean_id id = true <-> exists s, id = Some s /\ s <> "").
  { intros [s|]; cbn.
    - rewrite negb_true_iff, str_falsy_false. split.
      + intros H. exists s. split; [reflexivity | exact H].
      + intros (s' & [= <-] & H). exact H.
    - split; [discriminate|]. intros (s & H & _). discriminate. }
  destruct (integration_shape payload).
  { injection Hd as <-. destruct Hk; discriminate. }
  destruct (form_shape payload).
  { injection Hd as <-. destruct Hk; discriminate. }
  destruct (bounce_shape payload).
  { injection Hd as <-. cbn. eexists _, _. repeat split; apply Hid. }
  destruct (status_shape payload).
  { injection Hd as <-. cbn. eexists _, _. repeat split; apply Hid. }
  destruct (mail_shape payload); injection Hd as <-; destruct Hk; discriminate.
Qed.

(** The status payload of the repository's type-guard tests. *)
Lemma isCampaignEvent_iff_nonempty_id_witness :
  exists id flag,
    Some (Some "123") = Some id /\ Some true = Some flag
    /\ (flag = true <-> exists s, id = Some s /\ s <> "").
Proof.
  exact (isCampaignEvent_iff_nonempty_id
           (JObject {[ "status" := JString "MessageDelivered";
                       "message" := JObject {[ "message_id" := JString "test-message-id";
                                               "to" := JString "test@example.com";
                                               "tag" := JString "campaign:123" ]} ]})
           {| kind := status; isCampaignEvent := Some true;
              campaignId := Some (Some "123") |}
           eq_refl (or_intror eq_refl)).
Defined.

(** ** Falsy fields *)

Lemma field_insert (props : gmap string value) (k key : string) (v : value) :
  field (JObject (<[k:=v]> props)) key
  = if decide (k = key) then v else field (JObject props) key.
Proof.
  cbn [field]. case_decide as Hk.
  - subst. rewrite lookup_insert_eq. reflexivity.
  - rewrite lookup_insert_ne by assumption. reflexivity.
Qed.

Lemma field_delete (props : gmap string value) (k key : string) :
  field (JObject (delete k props)) key
  = if decide (k = key) then JUndefined else field (JObject props) key.
Proof.
  cbn [field]. case_decide as Hk.
  - subst. rewrite lookup_delete_eq. reflexivity.
  - rewrite lookup_delete_ne by assumption. reflexivity.
Qed.

(** A falsy value other than the empty string is no string. *)
Lemma falsy_not_string (v : value) :
  truthy v = false -> v <> JString "" -> is_string v = false.
Proof.
  destruct v as [| | | |s| |]; try reflexivity. intros H Hne.
  destruct s; [contradiction | discriminate].
Qed.

Ltac decide_keys :=
  repeat (case_decide; try discriminate; try congruence).

(** With a falsy [v] for [k] the payload has the shapes it has without [k]. *)
Lemma shapes_insert_delete (props : gmap string value) (k : string) (v : value) :
  truthy v = false ->
  (k = "event_type" -> v <> JString "") ->
  let P := JObject (<[k:=v]> props) in
  let Q := JObject (delete k props) in
  integration_shape P = integration_shape Q
  /\ form_shape P = form_shape Q
  /\ bounce_shape P = bounce_shape Q
  /\ status_shape P = status_shape Q
  /\ mail_shape P = mail_shape Q
  /\ (bounce_shape Q = true ->
      field P "original_message" = field Q "original_message")
  /\ (status_shape Q = true -> field P "message" = field Q "message").
Proof.
  intros Hv Hev P Q. subst P Q.
  unfold integration_shape, form_shape, bounce_shape, status_shape, mail_shape.
  rewrite !field_insert, !field_delete.
  assert (Hu : truthy JUndefined = false) by reflexivity.
  destruct (decide (k = "event_type")) as [->|Hne].
  - rewrite (falsy_not_string v Hv (Hev eq_refl)). repeat split; decide_keys.
  - repeat split; decide_keys; rewrite ?Hv, ?Hu, ?andb_false_r; try reflexivity;
      cbn [andb]; try discriminate.
Qed.

(** The claim of C10 fails for [event_type]: the empty string is falsy, yet
    the payload is an integration event, while without the field it is a
    mail. And a payload with a falsy [status] need not fall to a later kind:
    with a Form shape it is a form, an earlier kind than status. *)
Lemma detect_falsy_event_type :
  truthy (JString "") = false
  /\ detectVenmailWebhookKind
       (JObject (<["event_type" := JString ""]>
                   {[ "rcpt_to" := JString "test@example.com";
                      "message_id" := JString "test-message-id" ]}))
     = Return (only_kind integration)
  /\ detectVenmailWebhookKind
       (JObject (delete "event_type"
                   {[ "rcpt_to" := JString "test@example.com";
                      "message_id" := JString "test-message-id" ]}))
     = Return (only_kind mail)
  /\ detectVenmailWebhookKind
       (JObject {[ "status" := JString "";
                   "message" := JObject {[ "message_id" := JString "test-id" ]};
                   "form_id" := JNumber 123;
                   "events" := JArray [JString "form.response.created"] ]})
     = Return (only_kind form).
Proof. repeat split. Qed.

(** C10, amended. The classifier and the three guards test the truthiness
    of [form_id], [events], [original_message], [bounce], [status], [message],
    [rcpt_to] and [message_id]: a payload object holding a falsy value for a
    field is classified, and guarded, as the object without that field; the
    kind that requires the field is not returned and the guard that requires
    it returns false. The exception is [event_type], which is tested by type:
    the statement covers it for every falsy value but the empty string. *)
Theorem falsy_field_as_absent (props : gmap string value) (k : string) (v : value) :
  truthy v = false ->
  (k = "event_type" -> v <> JString "") ->
  let P := JObject (<[k:=v]> props) in
  let Q := JObject (delete k props) in
  detectVenmailWebhookKind P = detectVenmailWebhookKind Q
  /\ isMailWebhookPayload P = isMailWebhookPayload Q
  /\ isStatusPayload P = isStatusPayload Q
  /\ isBouncePayload P = isBouncePayload Q
  /\ (k = "message_id" \/ k = "rcpt_to" ->
      isMailWebhookPayload P = Return false
      /\ forall i, detectVenmailWebhookKind P = Return i -> kind i <> mail)
  /\ (k = "status" \/ k = "message" ->
      isStatusPayload P = Return false
      /\ forall i, detectVenmailWebhookKind P = Return i -> kind i <> status)
  /\ (k = "original_message" \/ k = "bounce" ->
      isBouncePayload P = Return false
      /\ forall i, detectVenmailWebhookKind P = Return i -> kind i <> bounce)
  /\ (k = "form_id" \/ k = "events" ->
      forall i, detectVenmailWebhookKind P = Return i -> kind i <> form).
Proof.
  intros Hv Hev P Q.
  destruct (shapes_insert_delete props k v Hv Hev) as (Hi & Hf & Hb & Hs & Hm & Hom & Hmsg).
  fold P Q in Hi, Hf, Hb, Hs, Hm, Hom, Hmsg.
  assert (Hdetect : detectVenmailWebhookKind P = detectVenmailWebhookKind Q).
  { rewrite !detectVenmailWebhookKind_fields, Hi, Hf, Hb, Hs, Hm.
    destruct (integration_shape Q); [reflexivity|].
    destruct (form_shape Q); [reflexivity|].
    destruct (bounce_shape Q); [rewrite Hom by reflexivity; reflexivity|].
    destruct (status_shape Q); [rewrite Hmsg by reflexivity; reflexivity|].
    reflexivity. }
  assert (Hkind : forall i, detectVenmailWebhookKind P = Return i -> kind i = first_match Q).
  { intros i Hd. rewrite Hdetect in Hd.
    destruct (detectVenmailWebhookKind_kind Q) as (j & Hj & <-). congruence. }
  assert (Hgone : field Q k = JUndefined).
  { subst Q. rewrite field_delete. case_decide; [reflexivity | contradiction]. }
  split; [exact Hdetect|].
  split; [rewrite !isMailWebhookPayload_shape, Hm; reflexivity|].
  split; [rewrite !isStatusPayload_shape, Hs; reflexivity|].
  split; [rewrite !isBouncePayload_shape, Hb; reflexivity|].
  split; [|split; [|split]].
  - intros Hk.
    assert (Hno : mail_shape Q = false).
    { unfold mail_shape. destruct Hk; subst k; rewrite Hgone; cbn [truthy andb];
        [apply andb_false_r | reflexivity]. }
    split; [rewrite isMailWebhookPayload_shape, Hm, Hno; reflexivity|].
    intros i Hd. rewrite (Hkind i Hd). unfold first_match. rewrite Hno.
    destruct (integration_shape Q), (form_shape Q), (bounce_shape Q), (status_shape Q);
      discriminate.
  - intros Hk.
    assert (Hno : status_shape Q = false).
    { unfold status_shape. destruct Hk; subst k; rewrite Hgone; cbn [truthy andb];
        [reflexivity | apply andb_false_r]. }
    split; [rewrite isStatusPayload_shape, Hs, Hno; reflexivity|].
    intros i Hd. rewrite (Hkind i Hd). unfold first_match. rewrite Hno.
    destruct (integration_shape Q), (form_shape Q), (bounce_shape Q), (mail_shape Q);
      discriminate.
  - intros Hk.
    assert (Hno : bounce_shape Q = false).
    { unfold bounce_shape. destruct Hk; subst k; rewrite Hgone; cbn [truthy andb];
        [reflexivity | apply andb_false_r]. }
    split; [rewrite isBouncePayload_shape, Hb, Hno; reflexivity|].
    intros i Hd. rewrite (Hkind i Hd). unfold first_match. rewrite Hno.
    destruct (integration_shape Q), (form_shape Q), (status_shape Q), (mail_shape Q);
      discriminate.
  - intros Hk i Hd.
    assert (Hno : form_shape Q = false).
    { unfold form_shape. destruct Hk; subst k; rewrite Hgone; cbn [truthy andb];
        [reflexivity | apply andb_false_r]. }
    rewrite (Hkind i Hd). unfold first_match. rewrite Hno.
    destruct (integration_shape Q), (bounce_shape Q), (status_shape Q), (mail_shape Q);
      discriminate.
Qed.

(** A status that is the empty string, next to a message: classified and
    guarded as the payload without [status]. *)
Lemma falsy_field_as_absent_witness :
  detectVenmailWebhookKind
    (JObject (<["status" := JString ""]>
                {[ "message" := JObject {[ "message_id" := JString "test-id" ]} ]}))
  = detectVenmailWebhookKind
      (JObject (delete "status"
                  {[ "message" := JObject {[ "message_id" := JString "test-id" ]} ]})).
Proof.
  refine (proj1 (falsy_field_as_absent
                   {[ "message" := JObject {[ "message_id" := JString "test-id" ]} ]}
                   "status" (JString "") eq_refl _)).
  intros H. discriminate H.
Defined.

Example falsy_field_examples :
  detectVenmailWebhookKind
    (JObject {[ "status" := JString "";
                "message" := JObject {[ "message_id" := JString "test-id" ]} ]})
  = Return (only_kind unknown)
  /\ isStatusPayload
       (JObject {[ "status" := JString "";
                   "message" := JObject {[ "message_id" := JString "test-id" ]} ]})
     = Return false
  /\ detectVenmailWebhookKind
       (JObject {[ "message_id" := JString ""; "rcpt_to" := JString "test@example.com" ]})
     = Return (only_kind unknown)
  /\ isMailWebhookPayload
       (JObject {[ "message_id" := JString ""; "rcpt_to" := JString "test@example.com" ]})
     = Return false
  /\ detectVenmailWebhookKind
       (JObject {[ "form_id" := JNumber 0; "events" := JArray [];
                   "rcpt_to" := JString "test@example.com";
                   "message_id" := JString "test-message-id" ]})
     = Return (only_kind mail).
Proof. repeat split. Qed.

(** ** The Express adaptor *)

(** The handler, once [venmailIntegrationWebhook] has returned it. *)
Lemma venmailIntegrationWebhook_handler
    (JSON_stringify : value -> string) (JSON_parse : Buffer.t -> result value)
    (options : VenmailIntegrationWebhookOptions) (handler : Request -> World -> World) :
  venmailIntegrationWebhook JSON_stringify JSON_parse options = Return handler ->
  exists handle,
    onEvent options = Some handle
    /\ forall req w,
        handler req w =
        match process JSON_stringify JSON_parse (secret options) handle
                (default false (allowUnsigned options))
                (default DEFAULT_SIGNATURE_HEADER (signatureHeader options))
                (default DEFAULT_EVENT_HEADER (eventHeader options))
                (rawBodyExtractor options)
                (default true (autoRespond options)) req w with
        | (Return _, w') => w'
        | (Throw e, w') =>
            {| res := res w'; onEvent_calls := onEvent_calls w';
               next_calls := next_calls w' ++ [e] |}
        end.
Proof.
  unfold venmailIntegrationWebhook. destruct (onEvent options) as [handle|]; [|discriminate].
  intros [= <-]. exists handle. split; [reflexivity|]. intros req w. reflexivity.
Qed.

(** C6. A request whose raw body was obtained, handled with [allowUnsigned]
    false: when the verifier answers false the handler writes the response
    401 with the body [{ ok: false, error: "Invalid Venmail signature" }] and
    nothing else happens; [onEvent] is not invoked unless the verifier
    answers true (when it throws, the error goes to [next]). With
    [allowUnsigned] true the verifier is not consulted: the handler does the
    same for every secret, and hands the parsed event to [onEvent] whatever
    the signature is. *)
Theorem venmailIntegrationWebhook_rejects_or_skips
    (JSON_stringify : value -> string) (JSON_parse : Buffer.t -> result value)
    (options : VenmailIntegrationWebhookOptions) (handler : Request -> World -> World)
    (req : Request) (w : World) (raw : Buffer.t) :
  venmailIntegrationWebhook JSON_stringify JSON_parse options = Return handler ->
  raw_of JSON_stringify options req = Return raw ->
  (default false (allowUnsigned options) = false ->
   (verifyVenmailSignature (secret options) (provided_signature options req)
      (RawBuffer raw) None = Return false ->
    handler req w = rejected w)
   /\ (forall e,
         verifyVenmailSignature (secret options) (provided_signature options req)
           (RawBuffer raw) None = Throw e ->
         handler req w =
         {| res := res w; onEvent_calls := onEvent_calls w;
            next_calls := next_calls w ++ [e] |})
   /\ (verifyVenmailSignature (secret options) (provided_signature options req)
         (RawBuffer raw) None <> Return true ->
       onEvent_calls (handler req w) = onEvent_calls w))
  /\ (allowUnsigned options = Some true ->
      (forall s, exists handler',
          venmailIntegrationWebhook JSON_stringify JSON_parse (with_secret s options)
          = Return handler'
          /\ handler' req w = handler req w)
      /\ (forall parsed event,
            JSON_parse raw = Return parsed ->
            event_name options req parsed = Return event ->
            onEvent_calls (handler req w)
            = (onEvent_calls w
                 ++ [enriched_event parsed event (provided_signature options req)])%list)).
Proof.
  intros Hh Hraw.
  destruct (venmailIntegrationWebhook_handler _ _ _ _ Hh) as (handle & Hon & Hrun).
  unfold raw_of in Hraw. split.
  - intros Hsigned.
    assert (Hfalse : verifyVenmailSignature (secret options) (provided_signature options req)
                       (RawBuffer raw) None = Return false -> handler req w = rejected w).
    { intros Hv. rewrite Hrun. unfold process. rewrite Hraw, Hsigned.
      unfold provided_signature in Hv. rewrite Hv. reflexivity. }
    assert (Hthrow : forall e,
               verifyVenmailSignature (secret options) (provided_signature options req)
                 (RawBuffer raw) None = Throw e ->
               handler req w =
               {| res := res w; onEvent_calls := onEvent_calls w;
                  next_calls := next_calls w ++ [e] |}).
    { intros e Hv. rewrite Hrun. unfold process. rewrite Hraw, Hsigned.
      unfold provided_signature in Hv. rewrite Hv. reflexivity. }
    split; [exact Hfalse|]. split; [exact Hthrow|].
    intros Hv.
    destruct (verifyVenmailSignature (secret options) (provided_signature options req)
                (RawBuffer raw) None) as [[|]|e] eqn:E.
    + contradiction.
    + rewrite Hfalse by reflexivity. reflexivity.
    + rewrite (Hthrow e) by reflexivity. reflexivity.
  - intros Hunsigned. split.
    + intros s. eexists. split.
      * unfold venmailIntegrationWebhook. cbn [with_secret onEvent]. rewrite Hon.
        reflexivity.
      * cbv beta. rewrite Hrun. cbn [with_secret secret allowUnsigned signatureHeader
          eventHeader rawBodyExtractor autoRespond].
        unfold process. rewrite Hunsigned. reflexivity.
    + intros parsed event Hparsed Hevent. rewrite Hrun. unfold process.
      rewrite Hraw, Hunsigned, Hparsed. cbn [default negb].
      unfold event_name in Hevent. rewrite Hevent.
      unfold enriched_event, provided_signature.
      destruct (handle _ req (res w)) as [[[]|e] res'];
        [destruct (default true (autoRespond options) && negb (headersSent res'))|];
        reflexivity.
Qed.

(** The rejected request of src/test/integration.test.ts: the signature
    header is "invalid-signature". *)
Lemma venmailIntegrationWebhook_rejects_or_skips_witness :
  exists handler,
    venmailIntegrationWebhook test_stringify test_parse (test_options None (Some false))
    = Return handler
    /\ handler (test_request "invalid-signature") fresh_world
       = {| res := {| headersSent := true; sent := [(401%nat, invalid_signature_body)] |};
            onEvent_calls := []; next_calls := [] |}.
Proof.
  eexists. split; [reflexivity|].
  refine (proj1 (proj1 (venmailIntegrationWebhook_rejects_or_skips
                          test_stringify test_parse (test_options None (Some false)) _
                          (test_request "invalid-signature") fresh_world
                          (Buffer.from_utf8 test_payload) eq_refl eq_refl) eq_refl) _).
  apply malformed_hex_rejected; [discriminate | reflexivity | reflexivity | cbn; lia].
Defined.

(** The accepted request of the same test: the signature is the digest of
    the body; [onEvent] receives the event with its headers and, with
    [autoRespond] left to its default, the handler answers 200. *)
Example handler_accepts_signed_request :
  exists handler,
    venmailIntegrationWebhook test_stringify test_parse (test_options None None)
    = Return handler
    /\ handler
         (test_request "e914119c41a12d9a06ed4306f9f3c1ce32ee6618cbb06f54f00a280ba2dc7985")
         fresh_world
       = {| res := {| headersSent := true; sent := [(200%nat, ok_body)] |};
            onEvent_calls :=
              [ JObject
                  {[ "test" := JString "data";
                     "headers" :=
                       JObject
                         {[ "x-venmail-event" := JString "MailReceived";
                            "x-venmail-signature" :=
                              JString "e914119c41a12d9a06ed4306f9f3c1ce32ee6618cbb06f54f00a280ba2dc7985" ]} ]} ];
            next_calls := [] |}.
Proof. eexists. split; [reflexivity|]. vm_compute. reflexivity. Qed.

(** The same handler with [allowUnsigned]: an invalid signature is let
    through to [onEvent]. *)
Example handler_allows_unsigned_request :
  exists handler,
    venmailIntegrationWebhook test_stringify test_parse (test_options (Some true) (Some false))
    = Return handler
    /\ handler (test_request "invalid-signature") fresh_world
       = {| res := fresh_response;
            onEvent_calls :=
              [ JObject
                  {[ "test" := JString "data";
                     "headers" :=
                       JObject
                         {[ "x-venmail-event" := JString "MailReceived";
                            "x-venmail-signature" := JString "invalid-signature" ]} ]} ];
            next_calls := [] |}.
Proof. eexists. split; [reflexivity|]. vm_compute. reflexivity. Qed.

(** An empty secret is a configuration error: the handler hands it to
    [next] and answers nothing. *)
Example handler_forwards_configuration_error :
  exists handler,
    venmailIntegrationWebhook test_stringify test_parse
      (with_secret "" (test_options None None))
    = Return handler
    /\ handler (test_request "invalid-signature") fresh_world
       = {| res := fresh_response;
            onEvent_calls := [];
            next_calls := [Error "Venmail signature validation requires a secret"] |}.
Proof. eexists. split; reflexivity. Qed.

(* ===================================================================== *)
(** * Part III. Further properties of the code                            *)
(* ===================================================================== *)

(** ** More on the two verifiers (lines 62-116) *)

Lemma to_base64_nonempty (d : list byte) : d <> [] -> Buffer.to_base64 d <> "".
Proof. destruct d as [|x [|y [|z d]]]; [contradiction|discriminate..]. Qed.

Lemma digest_nonempty (enc : encoding) (d : list byte) : d <> [] -> digest enc d <> "".
Proof.
  destruct enc; [|apply to_base64_nonempty].
  destruct d; [contradiction | discriminate].
Qed.

Lemma expected_digest_length (secret : string) (rawBody : raw_body) :
  length (expected_digest secret rawBody) = 32%nat.
Proof. apply hmac_length. Qed.

(** X1. With a non-empty secret, a signature that is the hexadecimal or the
    base64 text of some bytes, checked under the same encoding, is accepted
    exactly when the bytes are the HMAC-SHA256 digest of the body (a text
    body counts by its UTF-8 bytes): the digest itself is accepted, every
    other encoded value is rejected. *)
Theorem verifyVenmailSignature_accepts_only_the_digest
    (secret : string) (rawBody : raw_body) (enc : encoding) (d : list byte) :
  secret <> "" ->
  (verifyVenmailSignature secret (digest enc d) rawBody (Some enc) = Return true
   <-> d = expected_digest secret rawBody)
  /\ (d <> expected_digest secret rawBody ->
      verifyVenmailSignature secret (digest enc d) rawBody (Some enc) = Return false).
Proof.
  intros Hsecret. rewrite verifyVenmailSignature_spec by assumption.
  cbn [from_option id]. rewrite Buffer_from_digest. split; [split|].
  - intros [= H]. apply bool_decide_eq_true in H. tauto.
  - intros ->. f_equal. apply bool_decide_eq_true. split; [|reflexivity].
    apply digest_nonempty. intros H.
    pose proof (expected_digest_length secret rawBody) as Hlen.
    rewrite H in Hlen. discriminate.
  - intros H. f_equal. apply bool_decide_eq_false. tauto.
Qed.

(** A base64 signature over a text body, and a tampered digest. *)
Lemma verifyVenmailSignature_accepts_only_the_digest_witness :
  verifyVenmailSignature "test-secret-key"
    (digest base64 (expected_digest "test-secret-key" (RawString test_payload)))
    (RawString test_payload) (Some base64) = Return true.
Proof.
  assert (H : "test-secret-key" <> "") by discriminate.
  exact (proj2 (proj1 (verifyVenmailSignature_accepts_only_the_digest
                         "test-secret-key" (RawString test_payload) base64 _ H)) eq_refl).
Defined.

Lemma unhex_upper (c : ascii) : Buffer.unhex (upper_hex_digit c) = Buffer.unhex c.
Proof. destruct c as [[] [] [] [] [] [] [] []]; reflexivity. Qed.

Lemma from_hex_upper (s : string) : Buffer.from_hex (upper_hex s) = Buffer.from_hex s.
Proof.
  induction s as [|a|a b s IH] using string_pairs_ind; try reflexivity.
  cbn [upper_hex Buffer.from_hex]. rewrite !unhex_upper, IH. reflexivity.
Qed.

Lemma str_falsy_upper (s : string) : str_falsy (upper_hex s) = str_falsy s.
Proof. destruct s; reflexivity. Qed.

(** X2. Under the hexadecimal encoding (the default), the case of the digits
    of the signature does not matter: the verifier does the same on a
    signature and on its upper-case form. *)
Theorem verifyVenmailSignature_hex_case
    (secret signature : string) (rawBody : raw_body) :
  verifyVenmailSignature secret (upper_hex signature) rawBody None
  = verifyVenmailSignature secret signature rawBody None
  /\ verifyVenmailSignature secret (upper_hex signature) rawBody (Some hex)
     = verifyVenmailSignature secret signature rawBody (Some hex).
Proof.
  unfold verifyVenmailSignature. cbn [from_option id Buffer_from].
  rewrite str_falsy_upper, from_hex_upper. split; reflexivity.
Qed.

Example verifyVenmailSignature_upper_case :
  verifyVenmailSignature "test-secret-key"
    "C66DB02BF1C7157FA8624C7D07081AEF5803EE15F9494661E6A1688565DA8AD6"
    (RawString test_payload) None = Return true.
Proof. vm_compute. reflexivity. Qed.

(** The lengths of what the codecs produce. *)
Lemma from_hex_length (s : string) :
  (2 * length (Buffer.from_hex s) <= String.length s)%nat.
Proof.
  induction s as [|a|a b s IH] using string_pairs_ind; cbn [Buffer.from_hex String.length].
  - cbn. lia.
  - cbn. lia.
  - destruct (Buffer.unhex a), (Buffer.unhex b); cbn [length]; lia.
Qed.

Lemma to_base64_length (d : list byte) :
  (3 * String.length (Buffer.to_base64 d) <= 4 * length d + 8)%nat.
Proof.
  enough (H : (3 * String.length (Buffer.to_base64 d) <= 4 * length d + 8)%nat
              /\ (forall x, (3 * String.length (Buffer.to_base64 (x :: d))
                             <= 4 * length (x :: d) + 8)%nat)
              /\ (forall x y, (3 * String.length (Buffer.to_base64 (x :: y :: d))
                               <= 4 * length (x :: y :: d) + 8)%nat))
    by apply H.
  induction d as [|z d (IH0 & IH1 & IH2)].
  - repeat split; intros; cbn; lia.
  - split; [apply IH1|]. split; [intros x; apply IH2|]. intros x y.
    cbn [Buffer.to_base64 String.length length]. cbv zeta. cbn [String.length]. lia.
Qed.

Lemma base64_sextets_hex_digits (x : byte) (s : string) :
  length (Buffer.base64_sextets
            (String (Buffer.hex_digit (Byte.to_N x / 16))
               (String (Buffer.hex_digit (Byte.to_N x mod 16)) s)))
  = S (S (length (Buffer.base64_sextets s))).
Proof. destruct x; reflexivity. Qed.

Lemma base64_sextets_to_hex (d : list byte) :
  length (Buffer.base64_sextets (Buffer.to_hex d)) = (2 * length d)%nat.
Proof.
  induction d as [|x d IH]; [reflexivity|].
  change (Buffer.to_hex (x :: d))
    with (String (Buffer.hex_digit (Byte.to_N x / 16))
            (String (Buffer.hex_digit (Byte.to_N x mod 16)) (Buffer.to_hex d))).
  rewrite base64_sextets_hex_digits, IH. cbn [length]. lia.
Qed.

Lemma bytes_of_sextets_length (ds : list N) :
  (3 * length ds <= 4 * length (Buffer.bytes_of_sextets ds) + 3)%nat.
Proof.
  enough (H : (3 * length ds <= 4 * length (Buffer.bytes_of_sextets ds) + 3)%nat
              /\ (forall a, (3 * length (a :: ds)
                             <= 4 * length (Buffer.bytes_of_sextets (a :: ds)) + 3)%nat)
              /\ (forall a b, (3 * length (a :: b :: ds)
                               <= 4 * length (Buffer.bytes_of_sextets (a :: b :: ds)) + 3)%nat)
              /\ (forall a b c,
                    (3 * length (a :: b :: c :: ds)
                     <= 4 * length (Buffer.bytes_of_sextets (a :: b :: c :: ds)) + 3)%nat))
    by apply H.
  induction ds as [|e ds (IH0 & IH1 & IH2 & IH3)].
  - repeat split; intros; cbn; lia.
  - split; [apply IH1|]. split; [intros a; apply IH2|]. split; [intros a b; apply IH3|].
    intros a b c. cbn [Buffer.bytes_of_sextets length]. lia.
Qed.

(** X3. The encoding must be the one the signature was written in: with a
    non-empty secret, the hexadecimal digest checked as base64 and the base64
    digest checked as hexadecimal (the default) are both rejected. *)
Theorem verifyVenmailSignature_encoding_mismatch (secret : string) (rawBody : raw_body) :
  secret <> "" ->
  verifyVenmailSignature secret (digest hex (expected_digest secret rawBody)) rawBody
    (Some base64) = Return false
  /\ verifyVenmailSignature secret (digest base64 (expected_digest secret rawBody)) rawBody
       None = Return false
  /\ verifyVenmailSignature secret (digest base64 (expected_digest secret rawBody)) rawBody
       (Some hex) = Return false.
Proof.
  intros Hsecret. pose proof (expected_digest_length secret rawBody) as Hlen.
  rewrite !verifyVenmailSignature_spec by assumption.
  cbn [from_option id digest Buffer_from].
  assert (H64 : Buffer.from_base64 (Buffer.to_hex (expected_digest secret rawBody))
                <> expected_digest secret rawBody).
  { intros H. apply (f_equal (@length byte)) in H. unfold Buffer.from_base64 in H.
    pose proof (bytes_of_sextets_length
                  (Buffer.base64_sextets (Buffer.to_hex (expected_digest secret rawBody))))
      as Hle.
    rewrite base64_sextets_to_hex, H, Hlen in Hle. lia. }
  assert (H16 : Buffer.from_hex (Buffer.to_base64 (expected_digest secret rawBody))
                <> expected_digest secret rawBody).
  { intros H. apply (f_equal (@length byte)) in H.
    pose proof (from_hex_length (Buffer.to_base64 (expected_digest secret rawBody))) as Hle.
    pose proof (to_base64_length (expected_digest secret rawBody)) as Hup.
    rewrite H in Hle. rewrite Hlen in Hle, Hup. lia. }
  repeat split; f_equal; apply bool_decide_eq_false; tauto.
Qed.

Lemma verifyVenmailSignature_encoding_mismatch_witness :
  verifyVenmailSignature "test-secret-key"
    (digest hex (expected_digest "test-secret-key" (RawString test_payload)))
    (RawString test_payload) (Some base64) = Return false.
Proof.
  assert (H : "test-secret-key" <> "") by discriminate.
  exact (proj1 (verifyVenmailSignature_encoding_mismatch
                  "test-secret-key" (RawString test_payload) H)).
Defined.



(** ** More on the classifier, the guards and the normaliser (lines 220-331) *)

Lemma field_non_object (payload : value) (key : string) :
  (forall props, payload <> JObject props) -> field payload key = JUndefined.
Proof. destruct payload; try reflexivity. intros H. now destruct (H props). Qed.

(** The shapes of a payload classified with a given kind. *)
Lemma kind_shapes (payload : value) (i : VenmailWebhookInspection) :
  detectVenmailWebhookKind payload = Return i ->
  (kind i = mail -> mail_shape payload = true)
  /\ (kind i = status -> status_shape payload = true /\ bounce_shape payload = false)
  /\ (kind i = bounce -> bounce_shape payload = true)
  /\ (kind i = unknown \/ kind i = mail ->
      status_shape payload = false /\ bounce_shape payload = false)
  /\ (kind i = unknown -> mail_shape payload = false).
Proof.
  intros Hd. destruct (detectVenmailWebhookKind_kind payload) as (j & Hj & Hk).
  rewrite Hd in Hj. injection Hj as <-. rewrite Hk. unfold first_match.
  destruct (integration_shape payload), (form_shape payload), (bounce_shape payload),
    (status_shape payload), (mail_shape payload); intuition congruence.
Qed.

(** The normaliser, read through the fields of the payload. *)
Lemma normalizeDeliveryEvent_cases (payload : value) :
  normalizeDeliveryEvent payload =
  Return
    (if bounce_shape payload then
       {| messageId := field (field payload "original_message") "message_id";
          recipient := field (field payload "original_message") "to";
          nstatus := JString "MessageBounced";
          ncampaignId := extractCampaignId (field (field payload "original_message") "tag");
          npayload := payload |}
     else if status_shape payload then
       {| messageId := field (field payload "message") "message_id";
          recipient := field (field payload "message") "to";
          nstatus := field payload "status";
          ncampaignId := extractCampaignId (field (field payload "message") "tag");
          npayload := payload |}
     else
       {| messageId := JUndefined;
          recipient := JUndefined;
          nstatus := JString "Unknown";
          ncampaignId := None;
          npayload := payload |}).
Proof.
  unfold normalizeDeliveryEvent.
  rewrite isBouncePayload_shape. cbn [bind].
  destruct (bounce_shape payload) eqn:Hb.
  { apply shape_truthy in Hb as (Hp & Hm & _).
    rewrite prop_truthy by assumption. cbn [bind].
    rewrite !opt_prop_field. reflexivity. }
  rewrite isStatusPayload_shape. cbn [bind].
  destruct (status_shape payload) eqn:Hs; [|reflexivity].
  apply shape_truthy in Hs as (Hp & _ & Hm).
  unfold js_coalesce. rewrite !(prop_truthy payload) by assumption. cbn [bind].
  rewrite (truthy_not_nullish _ Hm). cbn [bind].
  rewrite !prop_truthy by assumption. reflexivity.
Qed.

(** X5. A payload that is not an object (undefined, null, a boolean, a
    number, a string, an array) is classified "unknown" with no other field,
    fails the three guards, is normalised to the "Unknown" record and has no
    attachments; none of the five functions throws on it. *)
Theorem non_object_payload (payload : value) :
  (forall props, payload <> JObject props) ->
  detectVenmailWebhookKind payload = Return (only_kind unknown)
  /\ isMailWebhookPayload payload = Return false
  /\ isStatusPayload payload = Return false
  /\ isBouncePayload payload = Return false
  /\ normalizeDeliveryEvent payload
     = Return {| messageId := JUndefined; recipient := JUndefined;
                 nstatus := JString "Unknown"; ncampaignId := None;
                 npayload := payload |}
  /\ extractAttachments payload = Return [].
Proof.
  intros Hno.
  assert (Hf : forall key, field payload key = JUndefined)
    by (intros key; now apply field_non_object).
  rewrite detectVenmailWebhookKind_fields, isMailWebhookPayload_shape,
    isStatusPayload_shape, isBouncePayload_shape.
  unfold integration_shape, form_shape, bounce_shape, status_shape, mail_shape,
    normalizeDeliveryEvent.
  rewrite isBouncePayload_shape, isStatusPayload_shape. unfold bounce_shape, status_shape.
  rewrite !Hf. repeat split.
  unfold extractAttachments. rewrite opt_prop_field, Hf. reflexivity.
Qed.

Lemma non_object_payload_witness :
  detectVenmailWebhookKind (JArray [JString "status"; JString "message"])
  = Return (only_kind unknown).
Proof.
  refine (proj1 (non_object_payload (JArray [JString "status"; JString "message"]) _)).
  intros props H. discriminate H.
Defined.

(** X6. The guards follow the classifier: a payload classified "mail"
    passes [isMailWebhookPayload], one classified "status" passes
    [isStatusPayload], one classified "bounce" passes [isBouncePayload], and
    one classified "unknown" passes none of the three. *)
Theorem guards_follow_classification (payload : value) (i : VenmailWebhookInspection) :
  detectVenmailWebhookKind payload = Return i ->
  (kind i = mail -> isMailWebhookPayload payload = Return true)
  /\ (kind i = status -> isStatusPayload payload = Return true)
  /\ (kind i = bounce -> isBouncePayload payload = Return true)
  /\ (kind i = unknown ->
      isMailWebhookPayload payload = Return false
      /\ isStatusPayload payload = Return false
      /\ isBouncePayload payload = Return false).
Proof.
  intros Hd. destruct (kind_shapes payload i Hd) as (Hm & Hs & Hb & Hu & Hum).
  rewrite isMailWebhookPayload_shape, isStatusPayload_shape, isBouncePayload_shape.
  repeat split.
  - intros H. now rewrite (Hm H).
  - intros H. now rewrite (proj1 (Hs H)).
  - intros H. now rewrite (Hb H).
  - now rewrite (Hum H).
  - now rewrite (proj1 (Hu (or_introl H))).
  - now rewrite (proj2 (Hu (or_introl H))).
Qed.

(** The mail payload of the repository's type-guard tests. *)
Lemma guards_follow_classification_witness :
  isMailWebhookPayload
    (JObject {[ "message_id" := JString "test-message-id";
                "rcpt_to" := JString "test@example.com" ]})
  = Return true.
Proof.
  exact (proj1 (guards_follow_classification
                  (JObject {[ "message_id" := JString "test-message-id";
                              "rcpt_to" := JString "test@example.com" ]})
                  (only_kind mail) eq_refl) eq_refl).
Defined.

(** The converse fails: a guard may pass on a payload of an earlier kind. *)
Example guard_passes_on_integration_event :
  isMailWebhookPayload
    (JObject {[ "event_type" := JString "MailReceived";
                "message_id" := JString "test-message-id";
                "rcpt_to" := JString "test@example.com" ]})
  = Return true.
Proof. reflexivity. Qed.

(** X7. The normaliser agrees with the classifier on delivery events: for a
    payload classified "bounce" the normalised status is "MessageBounced",
    for one classified "status" it is the status field of the payload, and
    in both cases the campaign id is the one the classifier reported; a
    payload classified "mail" or "unknown" is normalised to "Unknown". *)
Theorem normalizeDeliveryEvent_agrees_with_classifier
    (payload : value) (i : VenmailWebhookInspection) :
  detectVenmailWebhookKind payload = Return i ->
  exists e,
    normalizeDeliveryEvent payload = Return e
    /\ npayload e = payload
    /\ (kind i = bounce ->
        nstatus e = JString "MessageBounced" /\ campaignId i = Some (ncampaignId e))
    /\ (kind i = status ->
        nstatus e = field payload "status" /\ truthy (nstatus e) = true
        /\ campaignId i = Some (ncampaignId e))
    /\ (kind i = mail \/ kind i = unknown ->
        nstatus e = JString "Unknown" /\ ncampaignId e = None).
Proof.
  intros Hd. rewrite normalizeDeliveryEvent_cases.
  rewrite detectVenmailWebhookKind_fields in Hd. injection Hd as <-.
  eexists. split; [reflexivity|].
  assert (Ht : status_shape payload = true -> truthy (field payload "status") = true).
  { unfold status_shape. intros H. apply andb_prop in H. apply H. }
  destruct (integration_shape payload), (form_shape payload),
    (bounce_shape payload), (status_shape payload), (mail_shape payload);
    cbn; intuition (auto; congruence).
Qed.

(** The bounce payload of the repository's normalisation tests. *)
Lemma normalizeDeliveryEvent_agrees_with_classifier_witness :
  exists e,
    normalizeDeliveryEvent
      (JObject {[ "original_message" := JObject {[ "message_id" := JString "test-id";
                                                   "tag" := JString "campaign:456" ]};
                  "bounce" := JObject {[ "type" := JString "permanent" ]} ]})
    = Return e
    /\ nstatus e = JString "MessageBounced"
    /\ Some (Some "456") = Some (ncampaignId e).
Proof.
  assert (Hd : detectVenmailWebhookKind
                 (JObject {[ "original_message" :=
                               JObject {[ "message_id" := JString "test-id";
                                          "tag" := JString "campaign:456" ]};
                             "bounce" := JObject {[ "type" := JString "permanent" ]} ]})
               = Return {| kind := bounce; isCampaignEvent := Some true;
                           campaignId := Some (Some "456") |}) by reflexivity.
  destruct (normalizeDeliveryEvent_agrees_with_classifier _ _ Hd)
    as (e & He & _ & Hb & _).
  exists e. split; [exact He|]. exact (Hb eq_refl).
Defined.

(** X8. The classifier and the guards read nine fields of the payload and
    nothing else: two payloads that agree on [event_type], [form_id],
    [events], [original_message], [bounce], [status], [message], [rcpt_to]
    and [message_id] get the same classification and the same answers of the
    three guards, whatever else they hold. *)
Theorem classification_reads_nine_fields (payload payload' : value) :
  (forall key, key ∈ read_fields -> field payload key = field payload' key) ->
  detectVenmailWebhookKind payload = detectVenmailWebhookKind payload'
  /\ isMailWebhookPayload payload = isMailWebhookPayload payload'
  /\ isStatusPayload payload = isStatusPayload payload'
  /\ isBouncePayload payload = isBouncePayload payload'.
Proof.
  intros H.
  assert (Hk : forall key, key ∈ read_fields -> field payload key = field payload' key)
    by exact H.
  rewrite !detectVenmailWebhookKind_fields, !isMailWebhookPayload_shape,
    !isStatusPayload_shape, !isBouncePayload_shape.
  unfold integration_shape, form_shape, bounce_shape, status_shape, mail_shape.
  rewrite (Hk "event_type"), (Hk "form_id"), (Hk "events"), (Hk "original_message"),
    (Hk "bounce"), (Hk "status"), (Hk "message"), (Hk "rcpt_to"), (Hk "message_id")
    by (unfold read_fields; set_solver).
  repeat split.
Qed.

(** A status payload, with and without fields the classifier does not
    read. *)
Lemma classification_reads_nine_fields_witness :
  detectVenmailWebhookKind
    (JObject (<["to" := JString "test@example.com"]>
                (<["attachments" := JArray []]>
                   {[ "status" := JString "MessageDelivered";
                      "message" := JObject {[ "tag" := JString "campaign:123" ]} ]})))
  = detectVenmailWebhookKind
      (JObject {[ "status" := JString "MessageDelivered";
                  "message" := JObject {[ "tag" := JString "campaign:123" ]} ]}).
Proof.
  refine (proj1 (classification_reads_nine_fields _ _ _)).
  intros key Hkey. unfold read_fields in Hkey.
  repeat (apply elem_of_cons in Hkey as [->|Hkey]; [reflexivity|]).
  apply elem_of_nil in Hkey. contradiction.
Defined.

(** X9. The classifier sets [isCampaignEvent] and [campaignId] together, and
    exactly on the kinds "bounce" and "status": the other kinds carry neither
    field. *)
Theorem campaign_fields_only_on_delivery_kinds
    (payload : value) (i : VenmailWebhookInspection) :
  detectVenmailWebhookKind payload = Return i ->
  (kind i = bounce \/ kind i = status <-> isCampaignEvent i <> None)
  /\ (isCampaignEvent i <> None <-> campaignId i <> None).
Proof.
  intros Hd. rewrite detectVenmailWebhookKind_fields in Hd. injection Hd as <-.
  destruct (integration_shape payload), (form_shape payload), (bounce_shape payload),
    (status_shape payload), (mail_shape payload); cbn; intuition congruence.
Qed.

Lemma campaign_fields_only_on_delivery_kinds_witness :
  isCampaignEvent (only_kind mail) <> None <-> campaignId (only_kind mail) <> None.
Proof.
  exact (proj2 (campaign_fields_only_on_delivery_kinds
                  (JObject {[ "message_id" := JString "test-message-id";
                              "rcpt_to" := JString "test@example.com" ]})
                  (only_kind mail) eq_refl)).
Defined.

(** ** More on the Express adaptor (lines 118-204) *)

(** X10. [resolveRawBody] prefers bytes that were received over bytes it
    would have to rebuild: a Buffer body, then a Buffer [rawBody], then a
    string body, then a string [rawBody]. In these cases neither
    [JSON.stringify] nor the fallback is consulted. With no [rawBody], a body
    that is an object or an array is re-serialised, and any other body that
    is not a string (undefined, null, a number, a boolean) gives the fallback,
    "{}" when there is none. *)
Theorem resolveRawBody_precedence
    (JSON_stringify : value -> string) (req : Request) (fallback : option Buffer.t) :
  (forall b, body req = BodyBuffer b -> resolveRawBody JSON_stringify req fallback = b)
  /\ (forall v b, body req = BodyValue v -> rawBody req = Some (RawBuffer b) ->
        resolveRawBody JSON_stringify req fallback = b)
  /\ (forall s, body req = BodyValue (JString s) ->
        (forall b, rawBody req <> Some (RawBuffer b)) ->
        resolveRawBody JSON_stringify req fallback = Buffer.from_utf8 s)
  /\ (forall v s, body req = BodyValue v -> is_string v = false ->
        rawBody req = Some (RawString s) ->
        resolveRawBody JSON_stringify req fallback = Buffer.from_utf8 s)
  /\ (forall v, body req = BodyValue v -> rawBody req = None -> is_string v = false ->
        resolveRawBody JSON_stringify req fallback
        = if truthy v && String.eqb (typeof v) "object"
          then Buffer.from_utf8 (JSON_stringify v)
          else default (Buffer.from_utf8 "{}") fallback).
Proof.
  unfold resolveRawBody. repeat split.
  - intros b ->. reflexivity.
  - intros v b -> ->. destruct v; reflexivity.
  - intros s -> Hr. destruct (rawBody req) as [[b|s']|]; try reflexivity.
    now destruct (Hr b).
  - intros v s -> Hv ->. destruct v; try reflexivity. discriminate Hv.
  - intros v -> -> Hv. destruct v; try reflexivity. discriminate Hv.
Qed.

Example resolveRawBody_examples :
  resolveRawBody test_stringify
    {| body := BodyValue (JObject {[ "test" := JString "data" ]});
       rawBody := Some (RawBuffer [x7b; x7d]); get := fun _ => None |} None
  = [x7b; x7d]
  /\ resolveRawBody test_stringify
       {| body := BodyValue JNull; rawBody := None; get := fun _ => None |} None
     = [x7b; x7d]
  /\ resolveRawBody test_stringify
       {| body := BodyValue JUndefined; rawBody := None; get := fun _ => None |}
       (Some [x5b; x5d])
     = [x5b; x5d]
  /\ resolveRawBody test_stringify
       {| body := BodyValue (JArray []); rawBody := None; get := fun _ => None |} None
     = Buffer.from_utf8 test_payload.
Proof. repeat split. Qed.

(** The handler on a request that passes the signature check. *)
Lemma handler_accepted
    (JSON_stringify : value -> string) (JSON_parse : Buffer.t -> result value)
    (options : VenmailIntegrationWebhookOptions) (handler : Request -> World -> World)
    (handle : EventHandler) (req : Request) (w : World) (raw : Buffer.t) :
  venmailIntegrationWebhook JSON_stringify JSON_parse options = Return handler ->
  onEvent options = Some handle ->
  raw_of JSON_stringify options req = Return raw ->
  accepted options req raw ->
  handler req w =
  match JSON_parse raw with
  | Throw e => forwarded e w
  | Return parsed =>
      match event_name options req parsed with
      | Throw e => forwarded e w
      | Return event =>
          delivered handle (default true (autoRespond options))
            (enriched_event parsed event (provided_signature options req)) req w
      end
  end.
Proof.
  intros Hh Hon Hraw Hacc.
  destruct (venmailIntegrationWebhook_handler _ _ _ _ Hh) as (handle' & Hon' & Hrun).
  rewrite Hon in Hon'. injection Hon' as <-.
  rewrite Hrun. unfold process. unfold raw_of in Hraw. rewrite Hraw.
  assert (Hvalid : (if default false (allowUnsigned options) then Return true
                    else verifyVenmailSignature (secret options)
                           (default "" (get req (default DEFAULT_SIGNATURE_HEADER
                                                   (signatureHeader options))))
                           (RawBuffer raw) None) = Return true).
  { destruct Hacc as [-> | Hv]; [reflexivity|].
    destruct (default false (allowUnsigned options)); [reflexivity | exact Hv]. }
  rewrite Hvalid. cbn [negb].
  destruct (JSON_parse raw) as [parsed|e]; [|reflexivity].
  unfold event_name.
  destruct (js_coalesce _ (Return (JString ""))) as [event|e]; [|reflexivity].
  unfold delivered, enriched_event, provided_signature.
  destruct (handle _ req (res w)) as [[[]|e] res']; [|reflexivity].
  destruct (default true (autoRespond options) && negb (headersSent res')); reflexivity.
Qed.

(** X11. A request signed with the hexadecimal HMAC-SHA256 of its raw body
    under the (non-empty) secret of the handler is not rejected: when the body
    parses and the event name resolves, [onEvent] is called exactly once,
    with the parsed body enriched by the headers, and the world is the one
    [onEvent] leaves, with the automatic 200 answer when it applies. *)
Theorem handler_delivers_signed_request
    (JSON_stringify : value -> string) (JSON_parse : Buffer.t -> result value)
    (options : VenmailIntegrationWebhookOptions) (handler : Request -> World -> World)
    (handle : EventHandler) (req : Request) (w : World) (raw : Buffer.t)
    (parsed event : value) :
  venmailIntegrationWebhook JSON_stringify JSON_parse options = Return handler ->
  onEvent options = Some handle ->
  raw_of JSON_stringify options req = Return raw ->
  secret options <> "" ->
  get req (default DEFAULT_SIGNATURE_HEADER (signatureHeader options))
  = Some (Buffer.to_hex (Hmac.sha256 (Buffer.from_utf8 (secret options)) raw)) ->
  JSON_parse raw = Return parsed ->
  event_name options req parsed = Return event ->
  handler req w
  = delivered handle (default true (autoRespond options))
      (enriched_event parsed event
         (Buffer.to_hex (Hmac.sha256 (Buffer.from_utf8 (secret options)) raw))) req w
  /\ onEvent_calls (handler req w)
     = (onEvent_calls w
          ++ [enriched_event parsed event
                (Buffer.to_hex (Hmac.sha256 (Buffer.from_utf8 (secret options)) raw))])%list.
Proof.
  intros Hh Hon Hraw Hsecret Hsig Hparsed Hevent.
  assert (Hacc : accepted options req raw).
  { right. unfold provided_signature. rewrite Hsig. cbn [from_option id].
    rewrite verifyVenmailSignature_spec by assumption. f_equal.
    apply bool_decide_eq_true. split.
    - apply str_falsy_false, to_hex_truthy, hmac_length.
    - apply from_hex_to_hex. }
  rewrite (handler_accepted _ _ _ _ _ _ _ _ Hh Hon Hraw Hacc), Hparsed, Hevent.
  unfold provided_signature. rewrite Hsig. cbn [from_option id].
  split; [reflexivity|]. unfold delivered.
  destruct (handle _ req (res w)) as [[[]|e] res']; reflexivity.
Qed.

(** The accepted request of src/test/integration.test.ts. *)
Lemma handler_delivers_signed_request_witness :
  exists handler,
    venmailIntegrationWebhook test_stringify test_parse (test_options None None)
    = Return handler
    /\ onEvent_calls
         (handler
            (test_request
               (Buffer.to_hex (Hmac.sha256 (Buffer.from_utf8 "test-secret")
                                 (Buffer.from_utf8 test_payload))))
            fresh_world)
       = [enriched_event (JObject {[ "test" := JString "data" ]}) (JString "MailReceived")
            (Buffer.to_hex (Hmac.sha256 (Buffer.from_utf8 "test-secret")
                              (Buffer.from_utf8 test_payload)))].
Proof.
  eexists. split; [reflexivity|].
  assert (Hsecret : secret (test_options None None) <> "") by discriminate.
  exact (proj2 (handler_delivers_signed_request
                  test_stringify test_parse (test_options None None) _
                  (fun _ _ r => (Return tt, r))
                  (test_request
                     (Buffer.to_hex (Hmac.sha256 (Buffer.from_utf8 "test-secret")
                                       (Buffer.from_utf8 test_payload))))
                  fresh_world (Buffer.from_utf8 test_payload)
                  (JObject {[ "test" := JString "data" ]}) (JString "MailReceived")
                  eq_refl eq_refl eq_refl Hsecret eq_refl eq_refl eq_refl)).
Defined.

(** X12. After [onEvent] has returned on an accepted request, the handler
    answers 200 with [{ ok: true }] exactly when [autoRespond] is on (the
    default) and [onEvent] sent nothing; otherwise it leaves the response as
    [onEvent] left it. It never calls [next] then. *)
Theorem handler_autoRespond
    (JSON_stringify : value -> string) (JSON_parse : Buffer.t -> result value)
    (options : VenmailIntegrationWebhookOptions) (handler : Request -> World -> World)
    (handle : EventHandler) (req : Request) (w : World) (raw : Buffer.t)
    (parsed event : value) (res' : Response) :
  venmailIntegrationWebhook JSON_stringify JSON_parse options = Return handler ->
  onEvent options = Some handle ->
  raw_of JSON_stringify options req = Return raw ->
  accepted options req raw ->
  JSON_parse raw = Return parsed ->
  event_name options req parsed = Return event ->
  handle (enriched_event parsed event (provided_signature options req)) req (res w)
  = (Return tt, res') ->
  next_calls (handler req w) = next_calls w
  /\ res (handler req w)
     = (if default true (autoRespond options) && negb (headersSent res')
        then status_json 200 ok_body res' else res')
  /\ (headersSent res' = true -> res (handler req w) = res')
  /\ (autoRespond options = Some false -> res (handler req w) = res')
  /\ (autoRespond options = None -> headersSent res' = false ->
      sent (res (handler req w)) = (sent res' ++ [(200%nat, ok_body)])%list).
Proof.
  intros Hh Hon Hraw Hacc Hparsed Hevent Hrun.
  rewrite (handler_accepted _ _ _ _ _ _ _ _ Hh Hon Hraw Hacc), Hparsed, Hevent.
  unfold delivered. rewrite Hrun. cbn [next_calls res].
  split; [reflexivity|]. split; [reflexivity|]. split; [|split].
  - intros ->. rewrite andb_false_r. reflexivity.
  - intros ->. reflexivity.
  - intros -> ->. reflexivity.
Qed.

(** The accepted request of src/test/integration.test.ts, with
    [allowUnsigned] instead of a signature: the default answer. *)
Lemma handler_autoRespond_witness :
  exists handler,
    venmailIntegrationWebhook test_stringify test_parse (test_options (Some true) None)
    = Return handler
    /\ sent (res (handler (test_request "") fresh_world)) = [(200%nat, ok_body)].
Proof.
  eexists. split; [reflexivity|].
  refine (proj2 (proj2 (proj2 (proj2
            (handler_autoRespond test_stringify test_parse
               (test_options (Some true) None) _ (fun _ _ r => (Return tt, r))
               (test_request "") fresh_world (Buffer.from_utf8 test_payload)
               (JObject {[ "test" := JString "data" ]}) (JString "MailReceived")
               fresh_response eq_refl eq_refl eq_refl _ eq_refl eq_refl eq_refl))))
            eq_refl eq_refl).
  left. reflexivity.
Defined.

(** X13. Errors go to [next], once, and the handler answers nothing itself:
    an error thrown by the raw-body extractor, by the parsing of an accepted
    body, or by [onEvent]. After a throw of [onEvent] the response is as
    [onEvent] left it: there is no automatic answer. *)
Theorem handler_forwards_errors
    (JSON_stringify : value -> string) (JSON_parse : Buffer.t -> result value)
    (options : VenmailIntegrationWebhookOptions) (handler : Request -> World -> World)
    (handle : EventHandler) (req : Request) (w : World) :
  venmailIntegrationWebhook JSON_stringify JSON_parse options = Return handler ->
  onEvent options = Some handle ->
  (forall e, raw_of JSON_stringify options req = Throw e -> handler req w = forwarded e w)
  /\ (forall raw e,
        raw_of JSON_stringify options req = Return raw -> accepted options req raw ->
        JSON_parse raw = Throw e ->
        handler req w = forwarded e w)
  /\ (forall raw parsed event e res',
        raw_of JSON_stringify options req = Return raw -> accepted options req raw ->
        JSON_parse raw = Return parsed ->
        event_name options req parsed = Return event ->
        handle (enriched_event parsed event (provided_signature options req)) req (res w)
        = (Throw e, res') ->
        handler req w
        = {| res := res';
             onEvent_calls :=
               onEvent_calls w
                 ++ [enriched_event parsed event (provided_signature options req)];
             next_calls := next_calls w ++ [e] |}).
Proof.
  intros Hh Hon. split; [|split].
  - intros e Hraw.
    destruct (venmailIntegrationWebhook_handler _ _ _ _ Hh) as (handle' & _ & Hrun).
    rewrite Hrun. unfold process. unfold raw_of in Hraw. rewrite Hraw. reflexivity.
  - intros raw e Hraw Hacc Hparsed.
    rewrite (handler_accepted _ _ _ _ _ _ _ _ Hh Hon Hraw Hacc), Hparsed. reflexivity.
  - intros raw parsed event e res' Hraw Hacc Hparsed Hevent Hrun.
    rewrite (handler_accepted _ _ _ _ _ _ _ _ Hh Hon Hraw Hacc), Hparsed, Hevent.
    unfold delivered. rewrite Hrun. reflexivity.
Qed.

(** A body that does not parse, on a handler that allows unsigned requests. *)
Lemma handler_forwards_errors_witness :
  exists handler,
    venmailIntegrationWebhook test_stringify
      (fun _ => Throw (SyntaxError "Unexpected end of JSON input"))
      (test_options (Some true) None)
    = Return handler
    /\ handler (test_request "") fresh_world
       = forwarded (SyntaxError "Unexpected end of JSON input") fresh_world.
Proof.
  eexists. split; [reflexivity|].
  refine (proj1 (proj2
            (handler_forwards_errors test_stringify
               (fun _ => Throw (SyntaxError "Unexpected end of JSON input"))
               (test_options (Some true) None) _ (fun _ _ r => (Return tt, r))
               (test_request "") fresh_world eq_refl eq_refl))
            (Buffer.from_utf8 test_payload) _ eq_refl _ eq_refl).
  left. reflexivity.
Defined.

(** The event name of a body that parsed to an object: the header when the
    request has it, else the [event_type] of the body unless it is null or
    undefined, else the empty string. *)
Lemma event_name_object
    (options : VenmailIntegrationWebhookOptions) (req : Request)
    (props : gmap string value) :
  event_name options req (JObject props)
  = Return
      match get req (default DEFAULT_EVENT_HEADER (eventHeader options)) with
      | Some name => JString name
      | None =>
          if nullish (field (JObject props) "event_type") then JString ""
          else field (JObject props) "event_type"
      end.
Proof.
  unfold event_name, js_coalesce.
  destruct (get req _) as [name|]; cbn; [reflexivity|].
  destruct (nullish (default JUndefined (props !! "event_type"))) eqn:E; cbn; rewrite ?E;
    reflexivity.
Qed.

(** X14. What [onEvent] receives for an accepted body that parsed to an
    object: the properties of the body, except that [headers] is always the
    object built by the handler (a [headers] property of the body is
    overwritten), in which "x-venmail-signature" is the signature header of
    the request (the empty string without one) and "x-venmail-event" is the
    event header when the request has it, else the [event_type] of the body,
    else the empty string. *)
Theorem handler_enriches_event
    (JSON_stringify : value -> string) (JSON_parse : Buffer.t -> result value)
    (options : VenmailIntegrationWebhookOptions) (handler : Request -> World -> World)
    (handle : EventHandler) (req : Request) (w : World) (raw : Buffer.t)
    (props : gmap string value) :
  venmailIntegrationWebhook JSON_stringify JSON_parse options = Return handler ->
  onEvent options = Some handle ->
  raw_of JSON_stringify options req = Return raw ->
  accepted options req raw ->
  JSON_parse raw = Return (JObject props) ->
  exists e,
    onEvent_calls (handler req w) = (onEvent_calls w ++ [e])%list
    /\ field (field e "headers") "x-venmail-signature"
       = JString (default "" (get req (default DEFAULT_SIGNATURE_HEADER
                                         (signatureHeader options))))
    /\ field (field e "headers") "x-venmail-event"
       = match get req (default DEFAULT_EVENT_HEADER (eventHeader options)) with
         | Some name => JString name
         | None =>
             if nullish (field (JObject props) "event_type") then JString ""
             else field (JObject props) "event_type"
         end
    /\ (forall key, key <> "headers" -> field e key = field (JObject props) key).
Proof.
  intros Hh Hon Hraw Hacc Hparsed.
  rewrite (handler_accepted _ _ _ _ _ _ _ _ Hh Hon Hraw Hacc), Hparsed, event_name_object.
  eexists. split.
  - unfold delivered. destruct (handle _ req (res w)) as [[[]|e] res']; reflexivity.
  - unfold enriched_event, provided_signature. cbn [field spread].
    rewrite lookup_insert_eq. cbn [default from_option id field].
    split; [|split].
    + rewrite lookup_insert_ne by discriminate. rewrite lookup_singleton_eq. reflexivity.
    + rewrite lookup_insert_eq. reflexivity.
    + intros key Hkey. rewrite lookup_insert_ne by congruence. reflexivity.
Qed.

(** A body that brings its own [headers] and [event_type], on a request
    without event header. *)
Lemma handler_enriches_event_witness :
  exists handler e,
    venmailIntegrationWebhook test_stringify
      (fun _ => Return (JObject {[ "event_type" := JString "MailSent";
                                   "headers" := JString "spoofed" ]}))
      (test_options (Some true) None)
    = Return handler
    /\ onEvent_calls
         (handler {| body := BodyBuffer []; rawBody := None; get := fun _ => None |}
            fresh_world)
       = [e]
    /\ field (field e "headers") "x-venmail-event" = JString "MailSent"
    /\ field (field e "headers") "x-venmail-signature" = JString "".
Proof.
  destruct (handler_enriches_event test_stringify
              (fun _ => Return (JObject {[ "event_type" := JString "MailSent";
                                           "headers" := JString "spoofed" ]}))
              (test_options (Some true) None) _ (fun _ _ r => (Return tt, r))
              {| body := BodyBuffer []; rawBody := None; get := fun _ => None |}
              fresh_world [] _ eq_refl eq_refl eq_refl (or_introl eq_refl) eq_refl)
    as (e & Hcalls & Hsig & Hevent & _).
  eexists _, e. split; [reflexivity|]. split; [exact Hcalls|]. split; [exact Hevent|].
  exact Hsig.
Defined.



(** X16. On every request the handler calls [onEvent] at most once and
    [next] at most once, after whatever was logged before; and when it does
    not call [onEvent], all it may do to the response is the 401 rejection,
    in which case [next] is not called. *)
Theorem handler_at_most_once
    (JSON_stringify : value -> string) (JSON_parse : Buffer.t -> result value)
    (options : VenmailIntegrationWebhookOptions) (handler : Request -> World -> World)
    (req : Request) (w : World) :
  venmailIntegrationWebhook JSON_stringify JSON_parse options = Return handler ->
  exists calls errors,
    onEvent_calls (handler req w) = (onEvent_calls w ++ calls)%list
    /\ next_calls (handler req w) = (next_calls w ++ errors)%list
    /\ (length calls <= 1)%nat /\ (length errors <= 1)%nat
    /\ (calls = [] ->
        res (handler req w) = res w
        \/ (res (handler req w) = status_json 401 invalid_signature_body (res w)
            /\ errors = [])).
Proof.
  intros Hh.
  destruct (venmailIntegrationWebhook_handler _ _ _ _ Hh) as (handle & _ & Hrun).
  rewrite Hrun. unfold process.
  assert (Hnil : forall l : list error, l = (l ++ [])%list)
    by (intros l; symmetry; apply app_nil_r).
  assert (Hnil' : forall l : list value, l = (l ++ [])%list)
    by (intros l; symmetry; apply app_nil_r).
  destruct (match rawBodyExtractor options with
            | Some extract => extract req
            | None => Return (resolveRawBody JSON_stringify req None)
            end) as [raw|e].
  2: { exists [], [e]. cbn. repeat split; auto. }
  destruct (if default false (allowUnsigned options) then Return true else _) as [[|]|e].
  3: { exists [], [e]. cbn. repeat split; auto. }
  2: { exists [], []. cbn. repeat split; auto. }
  cbn [negb]. destruct (JSON_parse raw) as [parsed|e].
  2: { exists [], [e]. cbn. repeat split; auto. }
  destruct (js_coalesce _ (Return (JString ""))) as [event|e].
  2: { exists [], [e]. cbn. repeat split; auto. }
  destruct (handle _ req (res w)) as [[[]|e] res'].
  - destruct (default true (autoRespond options) && negb (headersSent res'));
      eexists [_], []; cbn; repeat split; auto; discriminate.
  - eexists [_], [e]. cbn. repeat split; auto. discriminate.
Qed.

Lemma handler_at_most_once_witness :
  exists handler (calls : list value) (errors : list error),
    venmailIntegrationWebhook test_stringify test_parse (test_options None None)
    = Return handler
    /\ onEvent_calls (handler (test_request "invalid-signature") fresh_world)
       = (onEvent_calls fresh_world ++ calls)%list
    /\ (length calls <= 1)%nat /\ (length errors <= 1)%nat.
Proof.
  destruct (handler_at_most_once test_stringify test_parse (test_options None None) _
              (test_request "invalid-signature") fresh_world eq_refl)
    as (calls & errors & Hcalls & _ & Hc & He & _).
  eexists _, calls, errors.
  exact (conj eq_refl (conj Hcalls (conj Hc He))).
Defined.

(** ** Attachments (lines 333-388) *)

Lemma prop_non_nullish (v : value) (key : string) :
  nullish v = false -> prop v key = Return (field v key).
Proof. destruct v; cbn; congruence. Qed.

Lemma attachment_object_kept (attachment : value) :
  attachment_object attachment
  = if nullish attachment
    then Throw (TypeError "Cannot read properties of undefined or null")
    else Return (kept_properties attachment).
Proof.
  unfold attachment_object. destruct (nullish attachment) eqn:E.
  - destruct attachment; try discriminate E; reflexivity.
  - rewrite !prop_non_nullish by assumption. reflexivity.
Qed.

Lemma map_result_attachments (items : list value) :
  map_result attachment_object items
  = if forallb (fun item => negb (nullish item)) items
    then Return (map kept_properties items)
    else Throw (TypeError "Cannot read properties of undefined or null").
Proof.
  induction items as [|item items IH]; [reflexivity|].
  cbn [map_result forallb map]. rewrite attachment_object_kept.
  destruct (nullish item); [reflexivity|]. cbn [bind negb andb]. rewrite IH.
  destruct (forallb _ items); reflexivity.
Qed.

(** [extractAttachments], read through the [attachments] field. *)
Lemma extractAttachments_cases (payload : value) :
  extractAttachments payload
  = match field payload "attachments" with
    | JArray items => map_result attachment_object items
    | _ => Return []
    end.
Proof.
  unfold extractAttachments. rewrite opt_prop_field. cbn [bind].
  destruct (truthy (field payload "attachments")) eqn:Ht; cbn [negb].
  2: { destruct (field payload "attachments"); try reflexivity. discriminate Ht. }
  assert (Hp : truthy payload = true).
  { destruct (truthy payload) eqn:Hp; [reflexivity|].
    rewrite (field_falsy payload "attachments" Hp) in Ht. discriminate Ht. }
  rewrite !prop_truthy by assumption. cbn [bind].
  destruct (field payload "attachments"); reflexivity.
Qed.

Lemma kept_properties_fields (attachment : value) (key : string) :
  field (kept_properties attachment) key
  = if decide (key ∈ attachment_fields) then field attachment key else JUndefined.
Proof.
  unfold kept_properties, attachment_fields. cbn [field].
  destruct (decide (key ∈ _)) as [Hin|Hout].
  - repeat (apply elem_of_cons in Hin as [->|Hin]; [reflexivity|]).
    apply elem_of_nil in Hin. contradiction.
  - rewrite !lookup_insert_ne, lookup_singleton_ne; [reflexivity|..];
      intros <-; apply Hout; set_solver.
Qed.


Example extractAttachments_examples :
  extractAttachments (JObject {[ "attachments" := JString "a.pdf" ]}) = Return []
  /\ extractAttachments (JObject {[ "attachments" := JArray [] ]}) = Return []
  /\ extractAttachments (JObject {[ "attachments" := JArray [JNumber 1] ]})
     = Return [kept_properties JUndefined]
  /\ extractAttachments
       (JObject {[ "attachments" :=
                     JArray [JObject {[ "filename" := JString "a.pdf" ]}; JNull] ]})
     = Throw (TypeError "Cannot read properties of undefined or null").
Proof. repeat split. Qed.

(** X18. On an array of elements none of which is null or undefined,
    [extractAttachments] returns one object per element, in order; each
    object holds the six properties [filename], [content_type], [size],
    [storage_url], [attachment_id] and [thumbnail_url] with the values of the
    element (undefined for a property the element lacks) and no other
    property of the element. *)
Theorem extractAttachments_keeps_six_fields (payload : value) (items : list value) :
  field payload "attachments" = JArray items ->
  (forall item, item ∈ items -> nullish item = false) ->
  exists kept,
    extractAttachments payload = Return kept
    /\ length kept = length items
    /\ (forall i item o, items !! i = Some item -> kept !! i = Some o ->
          forall key,
            field o key
            = if decide (key ∈ attachment_fields) then field item key else JUndefined).
Proof.
  intros Hatt Hitems. rewrite extractAttachments_cases, Hatt, map_result_attachments.
  assert (E : forallb (fun item => negb (nullish item)) items = true).
  { apply forallb_forall. intros item Hin. apply list_elem_of_In in Hin.
    now rewrite (Hitems item Hin). }
  rewrite E. eexists. split; [reflexivity|]. split; [apply length_map|].
  intros i item o Hi Ho key. rewrite list_lookup_fmap, Hi in Ho.
  injection Ho as <-. apply kept_properties_fields.
Qed.

Lemma extractAttachments_keeps_six_fields_witness :
  exists kept,
    extractAttachments
      (JObject {[ "attachments" :=
                    JArray [JObject {[ "filename" := JString "a.pdf";
                                       "size" := JNumber 1024;
                                       "checksum" := JString "abc" ]}] ]})
    = Return kept
    /\ length kept = 1%nat.
Proof.
  assert (Hatt : field
                   (JObject {[ "attachments" :=
                                 JArray [JObject {[ "filename" := JString "a.pdf";
                                                    "size" := JNumber 1024;
                                                    "checksum" := JString "abc" ]}] ]})
                   "attachments"
                 = JArray [JObject {[ "filename" := JString "a.pdf";
                                      "size" := JNumber 1024;
                                      "checksum" := JString "abc" ]}]) by reflexivity.
  destruct (extractAttachments_keeps_six_fields _ _ Hatt) as (kept & Hk & Hlen & _).
  - intros item Hin. apply list_elem_of_singleton in Hin. subst item. reflexivity.
  - exists kept. exact (conj Hk Hlen).
Defined.

Lemma kept_properties_idempotent (attachment : value) :
  kept_properties (kept_properties attachment) = kept_properties attachment.
Proof.
  unfold kept_properties at 1. rewrite !kept_properties_fields.
  unfold attachment_fields.
  repeat (rewrite decide_True by set_solver). reflexivity.
Qed.

(** X19. Extracting is idempotent: the list that [extractAttachments]
    returns, put back as the [attachments] of a payload, is extracted
    unchanged. *)
Theorem extractAttachments_idempotent (payload : value) (kept : list value) :
  extractAttachments payload = Return kept ->
  extractAttachments (JObject {[ "attachments" := JArray kept ]}) = Return kept.
Proof.
  rewrite !extractAttachments_cases. cbn [field]. rewrite lookup_singleton_eq.
  cbn [default from_option id].
  assert (Hkept : forall items,
             map_result attachment_object (map kept_properties items)
             = Return (map kept_properties items)).
  { intros items. rewrite map_result_attachments.
    assert (E : forallb (fun item => negb (nullish item)) (map kept_properties items) = true).
    { apply forallb_forall. intros item Hin. apply in_map_iff in Hin as (x & <- & _).
      reflexivity. }
    rewrite E, map_map. apply (f_equal Return), map_ext. intros x.
    apply kept_properties_idempotent. }
  destruct (field payload "attachments") as [| | | | |items|];
    try (intros [= <-]; reflexivity).
  rewrite map_result_attachments.
  destruct (forallb (fun item => negb (nullish item)) items); [|discriminate].
  intros [= <-]. apply Hkept.
Qed.

Lemma extractAttachments_idempotent_witness :
  extractAttachments
    (JObject {[ "attachments" := JArray [kept_properties (JString "a.pdf")] ]})
  = Return [kept_properties (JString "a.pdf")].
Proof.
  apply (extractAttachments_idempotent (JObject {[ "attachments" := JArray [JString "a.pdf"] ]})).
  reflexivity.
Defined.

Lemma opt_str_truthy_false (o : option string) : opt_str_truthy o = false <-> missing o.
Proof.
  unfold missing. destruct o as [s|]; cbn.
  - rewrite negb_false_iff. unfold str_falsy. rewrite String.eqb_eq.
    split; [intros ->; now right | intros [H|[= ->]]; [discriminate H | reflexivity]].
  - split; [now left | reflexivity].
Qed.

Lemma opt_str_truthy_true (o : option string) :
  opt_str_truthy o = true <-> exists s, o = Some s /\ s <> "".
Proof.
  destruct o as [s|]; cbn.
  - rewrite negb_true_iff, str_falsy_false. split.
    + intros H. now exists s.
    + intros (s' & [= <-] & H). exact H.
  - split; [discriminate | intros (s & H & _); discriminate H].
Qed.

Lemma append_nonempty_r (a b : string) : b <> "" -> a ++ b <> "".
Proof. destruct a; [now cbn | discriminate]. Qed.

(** X20. [getAttachmentDownloadUrl] throws exactly when the attachment has
    neither a [storage_url] nor an [attachment_id] (missing or empty). A
    [storage_url] is returned as it is, whatever the base URL and the id;
    without it the URL is built from the base URL and the id. A returned URL
    is never empty. *)
Theorem getAttachmentDownloadUrl_cases (attachment : Attachment.t) (baseUrl : string) :
  ((exists e, getAttachmentDownloadUrl attachment baseUrl = Throw e)
   <-> missing (Attachment.storage_url attachment)
       /\ missing (Attachment.attachment_id attachment))
  /\ (forall url, Attachment.storage_url attachment = Some url -> url <> "" ->
        getAttachmentDownloadUrl attachment baseUrl = Return url)
  /\ (forall id, missing (Attachment.storage_url attachment) ->
        Attachment.attachment_id attachment = Some id -> id <> "" ->
        getAttachmentDownloadUrl attachment baseUrl
        = Return (baseUrl ++ "/api/v1/attachments/" ++ id ++ "/download"))
  /\ (forall url, getAttachmentDownloadUrl attachment baseUrl = Return url -> url <> "").
Proof.
  unfold getAttachmentDownloadUrl.
  destruct (opt_str_truthy (Attachment.storage_url attachment)) eqn:Es;
    [|destruct (opt_str_truthy (Attachment.attachment_id attachment)) eqn:Ei].
  - apply opt_str_truthy_true in Es as (u & Hu & Hne). rewrite Hu. cbn [default from_option id].
    split; [split|split; [|split]].
    + intros (e & He). discriminate He.
    + intros ([H|H] & _); congruence.
    + intros url [= <-] _. reflexivity.
    + intros id [H|H]; congruence.
    + intros url [= <-]. exact Hne.
  - apply opt_str_truthy_false in Es. apply opt_str_truthy_true in Ei as (i & Hi & Hne).
    rewrite Hi. cbn [default from_option id].
    split; [split|split; [|split]].
    + intros (e & He). discriminate He.
    + intros (_ & [H|H]); congruence.
    + intros url Hu Hn. destruct Es as [H|H]; congruence.
    + intros id _ [= <-] _. reflexivity.
    + intros url [= <-]. apply append_nonempty_r. discriminate.
  - apply opt_str_truthy_false in Es, Ei.
    split; [split|split; [|split]].
    + intros _. split; assumption.
    + intros _. eexists. reflexivity.
    + intros url Hu Hn. destruct Es as [H|H]; congruence.
    + intros id _ Hid Hn. destruct Ei as [H|H]; congruence.
    + intros url H. discriminate H.
Qed.

(** X21. [getAttachmentThumbnailUrl] returns null exactly when the
    attachment has neither a [thumbnail_url] nor an [attachment_id] (missing
    or empty); a [thumbnail_url] is returned as it is, and without it the URL
    is built from the base URL and the id. A returned URL is never empty, and
    for an attachment whose download URL cannot be built the thumbnail is its
    [thumbnail_url] or null. *)
Theorem getAttachmentThumbnailUrl_cases (attachment : Attachment.t) (baseUrl : string) :
  (getAttachmentThumbnailUrl attachment baseUrl = None
   <-> missing (Attachment.thumbnail_url attachment)
       /\ missing (Attachment.attachment_id attachment))
  /\ (forall url, Attachment.thumbnail_url attachment = Some url -> url <> "" ->
        getAttachmentThumbnailUrl attachment baseUrl = Some url)
  /\ (forall id, missing (Attachment.thumbnail_url attachment) ->
        Attachment.attachment_id attachment = Some id -> id <> "" ->
        getAttachmentThumbnailUrl attachment baseUrl
        = Some (baseUrl ++ "/api/v1/attachments/" ++ id ++ "/thumbnail"))
  /\ (forall url, getAttachmentThumbnailUrl attachment baseUrl = Some url -> url <> "")
  /\ (forall e, getAttachmentDownloadUrl attachment baseUrl = Throw e ->
        getAttachmentThumbnailUrl attachment baseUrl = None
        \/ getAttachmentThumbnailUrl attachment baseUrl
           = Attachment.thumbnail_url attachment).
Proof.
  unfold getAttachmentThumbnailUrl, getAttachmentDownloadUrl.
  destruct (opt_str_truthy (Attachment.thumbnail_url attachment)) eqn:Et;
    [|destruct (opt_str_truthy (Attachment.attachment_id attachment)) eqn:Ei].
  - apply opt_str_truthy_true in Et as (u & Hu & Hne). rewrite Hu. cbn [default from_option id].
    split; [split|split; [|split; [|split]]].
    + discriminate.
    + intros ([H|H] & _); congruence.
    + intros url [= <-] _. reflexivity.
    + intros id [H|H]; congruence.
    + intros url [= <-]. exact Hne.
    + intros e _. now right.
  - apply opt_str_truthy_false in Et. apply opt_str_truthy_true in Ei as (i & Hi & Hne).
    rewrite Hi. cbn [default from_option id].
    split; [split|split; [|split; [|split]]].
    + discriminate.
    + intros (_ & [H|H]); congruence.
    + intros url Hu Hn. destruct Et as [H|H]; congruence.
    + intros id _ [= <-] _. reflexivity.
    + intros url [= <-]. apply append_nonempty_r. discriminate.
    + intros e He. destruct (opt_str_truthy (Attachment.storage_url attachment));
        discriminate He.
  - apply opt_str_truthy_false in Et, Ei.
    split; [split|split; [|split; [|split]]].
    + intros _. split; assumption.
    + reflexivity.
    + intros url Hu Hn. destruct Et as [H|H]; congruence.
    + intros id _ Hid Hn. destruct Ei as [H|H]; congruence.
    + intros url H. discriminate H.
    + intros e _. now left.
Qed.

Example attachment_url_examples :
  let a := {| Attachment.filename := "a.pdf"; Attachment.content_type := None;
              Attachment.size := None; Attachment.storage_url := Some "";
              Attachment.attachment_id := Some "42";
              Attachment.thumbnail_url := None |} in
  getAttachmentDownloadUrl a "https://m.example"
  = Return "https://m.example/api/v1/attachments/42/download"
  /\ getAttachmentThumbnailUrl a "https://m.example"
     = Some "https://m.example/api/v1/attachments/42/thumbnail".
Proof. split; reflexivity. Qed.

Lemma SFltb_irrefl (x : SpecFloat.spec_float) : SpecFloat.SFltb x x = false.
Proof.
  unfold SpecFloat.SFltb. destruct x as [s|s| |s m e]; try reflexivity; cbn.
  - destruct s; reflexivity.
  - destruct s; rewrite Z.compare_refl, ?Pos.compare_cont_refl, ?Pos.compare_refl;
      cbn; reflexivity.
Qed.

Lemma ltb_irrefl (x : float) : PrimFloat.ltb x x = false.
Proof. rewrite ltb_spec. apply SFltb_irrefl. Qed.

(** X22. [hasLargeAttachments] counts an attachment only for a size that is
    truthy and strictly above the threshold: attachments without a size, or
    with the size 0 or NaN, are never large, whatever the threshold (a
    negative one included); a size equal to the threshold is not large; and
    a list is large exactly when one of its parts is. *)
Theorem hasLargeAttachments_edges
    (attachments more : list Attachment.t) (threshold : option float) :
  ((forall a, a ∈ attachments -> opt_num_truthy (Attachment.size a) = false) ->
   hasLargeAttachments attachments threshold = false)
  /\ (forall a s, Attachment.size a = Some s -> hasLargeAttachments [a] (Some s) = false)
  /\ hasLargeAttachments (attachments ++ more) threshold
     = hasLargeAttachments attachments threshold || hasLargeAttachments more threshold.
Proof.
  unfold hasLargeAttachments. split; [|split].
  - intros H. induction attachments as [|a l IH]; [reflexivity|].
    cbn [existsb]. rewrite IH by (intros b Hb; apply H; now right).
    specialize (H a ltac:(now left)). unfold opt_num_truthy in H.
    destruct (Attachment.size a) as [s|]; [rewrite H|]; reflexivity.
  - intros a s Hs. cbn [existsb from_option id]. rewrite Hs, ltb_irrefl.
    destruct (truthy (JNumber s)); reflexivity.
  - apply existsb_app.
Qed.

Example hasLargeAttachments_examples :
  let sized s := {| Attachment.filename := "a.bin"; Attachment.content_type := None;
                    Attachment.size := s; Attachment.storage_url := None;
                    Attachment.attachment_id := None; Attachment.thumbnail_url := None |} in
  hasLargeAttachments [sized (Some 10485760%float)] None = false
  /\ hasLargeAttachments [sized None; sized (Some 10485761%float)] None = true
  /\ hasLargeAttachments [sized (Some 0%float)] (Some (-1)%float) = false
  /\ hasLargeAttachments [sized (Some 1%float)] (Some (-1)%float) = true
  /\ hasLargeAttachments [sized (Some 1%float)] (Some nan) = false.
Proof. repeat split. Qed.
